(** * Sales record cleaner: a shallow embedding of [main.py]

    [main] reads a header-less four-column CSV file with pandas, cleans the
    [product] and [price] columns, drops rows with missing values and
    duplicate (product, price) pairs, adds the price in rupees and writes
    the records as JSON.

    The script is a straight line of pandas calls, so the embedding gives
    each call the meaning pandas gives it:

    - a cell of a loaded frame is an int64, a float64, a bool, a [str] or
      the NaN object; a column of a file that is read at once holds cells
      of one kind;
    - a frame is the list of its rows, in order, each with the row number
      it was loaded at;
    - an exception is a value of [error]; a stage that can raise returns
      a [result].

    Text is [string]; each character stands for the Unicode code point of
    the same number (0..255). *)

From Stdlib Require Import ZArith List String Ascii Bool Lia PeanoNat.
From Stdlib Require Import Sorting.Sorted.
From Stdlib Require Import Floats.SpecFloat.
Import ListNotations.

Local Open Scope string_scope.
Local Open Scope Z_scope.

(** ** Exceptions *)

Inductive error : Type :=
| ParserError      (* pandas.errors.ParserError: "Expected n fields in line k, saw m" *)
| AttributeError   (* "Can only use .str accessor with string values!" *)
| ValueError.      (* "could not convert string to float" *)

Inductive result (A : Type) : Type :=
| OK (a : A)
| Raise (e : error).

Arguments OK {A} a.
Arguments Raise {A} e.

Definition bind {A B : Type} (m : result A) (k : A -> result B) : result B :=
  match m with
  | OK a => k a
  | Raise e => Raise e
  end.

Notation "x <- m ;; k" := (bind m (fun x => k))
  (at level 61, m at next level, right associativity).

Fixpoint mapM {A B : Type} (f : A -> result B) (l : list A) : result (list B) :=
  match l with
  | [] => OK []
  | a :: l' => b <- f a ;; bs <- mapM f l' ;; OK (b :: bs)
  end.

(** ** float64 *)

Module F64.

Definition prec : Z := 53.
Definition emax : Z := 1024.

Definition float64 : Type := spec_float.

Definition nan : float64 := S754_nan.

Definition isnan (x : float64) : bool :=
  match x with
  | S754_nan => true
  | _ => false
  end.

Definition add : float64 -> float64 -> float64 := SFadd prec emax.
Definition mul : float64 -> float64 -> float64 := SFmul prec emax.
Definition div : float64 -> float64 -> float64 := SFdiv prec emax.

(** IEEE [==]: false on NaN, true on 0.0 and -0.0. *)
Definition eqb : float64 -> float64 -> bool := SFeqb.

(** The float64 nearest to the integer [z] (ties to even). *)
Definition of_Z (z : Z) : float64 := binary_normalize prec emax z 0 false.

(** The float64 nearest to [(-1)^s * m * 10^e], for [m >= 0]; this is
    what a correctly rounded [strtod] returns on a decimal literal with
    digits [m] and decimal exponent [e]. Above the largest float the
    result is an infinity. *)
Definition of_decimal (s : bool) (m : Z) (e : Z) : float64 :=
  match m with
  | Zpos p =>
      match e with
      | Zneg k => SFdiv prec emax (S754_finite s p 0)
                                  (S754_finite false (Pos.pow 10 k) 0)
      | _ => binary_round prec emax s (Z.to_pos (m * 10 ^ e)) 0
      end
  | _ => S754_zero s
  end.

(** The integer nearest to [m / 2^k], ties to the even one. *)
Definition rint_Z (m k : Z) : Z :=
  let q := m / 2 ^ k in
  let r := m mod 2 ^ k in
  match 2 * r ?= 2 ^ k with
  | Lt => q
  | Gt => q + 1
  | Eq => if Z.even q then q else q + 1
  end.

(** C's [rint] in the default rounding mode: NaN, infinities, zeros and
    floats that are integers already are returned as they are; the sign
    is kept when the result is zero. *)
Definition rint (x : float64) : float64 :=
  match x with
  | S754_finite s m e =>
      if 0 <=? e then x
      else match rint_Z (Zpos m) (- e) with
           | Zpos n => binary_round prec emax s n 0
           | _ => S754_zero s
           end
  | _ => x
  end.

(** The integer that a float is, when it is one: [None] for a float with
    a fractional part, for an infinity and for NaN. *)
Definition integer_value (x : float64) : option Z :=
  match x with
  | S754_zero _ => Some 0
  | S754_finite s m e =>
      if 0 <=? e then Some (cond_Zopp s (Zpos m * 2 ^ e))
      else if Zpos m mod 2 ^ (- e) =? 0 then Some (cond_Zopp s (Zpos m / 2 ^ (- e)))
      else None
  | _ => None
  end.

(** numpy's [ndarray.round(decimals)] for [decimals > 0]:
    multiply by [10**decimals], [rint], divide by [10**decimals]. *)
Definition round (x : float64) (decimals : Z) : float64 :=
  let f := of_Z (10 ^ decimals) in
  div (rint (mul x f)) f.

End F64.

(** ** Python [str] *)

Module Py.

Definition code (c : ascii) : Z := Z.of_N (N_of_ascii c).

Definition in_range (lo hi : Z) (c : ascii) : bool :=
  (lo <=? code c) && (code c <=? hi).

(** [str.isspace] on one character: the code points below 256 that
    Unicode classes as whitespace. *)
Definition isspace (c : ascii) : bool :=
  in_range 9 13 c || in_range 28 32 c || (code c =? 133) || (code c =? 160).

Definition isdigit (c : ascii) : bool := in_range 48 57 c.

Definition digit (c : ascii) : Z := code c - 48.

(** ASCII lower case, as [Py_TOLOWER]. *)
Definition tolower (c : ascii) : ascii :=
  if in_range 65 90 c then ascii_of_N (N_of_ascii c + 32) else c.

Fixpoint lower (s : string) : string :=
  match s with
  | EmptyString => EmptyString
  | String c s' => String (tolower c) (lower s')
  end.

(** [s.replace(old, new)] for a pattern [old] of one character: every
    occurrence is replaced. *)
Fixpoint replace (old : ascii) (new : string) (s : string) : string :=
  match s with
  | EmptyString => EmptyString
  | String c s' =>
      if Ascii.eqb c old then new ++ replace old new s'
      else String c (replace old new s')
  end.

Section Strip.
Variable space : ascii -> bool.

Fixpoint lstrip_with (s : string) : string :=
  match s with
  | EmptyString => EmptyString
  | String c s' => if space c then lstrip_with s' else s
  end.

Fixpoint rstrip_with (s : string) : string :=
  match s with
  | EmptyString => EmptyString
  | String c s' =>
      match rstrip_with s' with
      | EmptyString => if space c then EmptyString else String c EmptyString
      | t => String c t
      end
  end.

Definition strip_with (s : string) : string := rstrip_with (lstrip_with s).
End Strip.

(** [s.strip()] *)
Definition strip : string -> string := strip_with isspace.

(** *** [float(s)] *)

(** An optional sign: whether it is a minus, and the text after it. *)
Definition sign (s : string) : bool * string :=
  match s with
  | String "-" r => (true, r)
  | String "+" r => (false, r)
  | _ => (false, s)
  end.

(** The longest prefix of decimal digits: the number it denotes on top
    of [acc], how many digits were added to [n], and the text left. *)
Fixpoint digits (acc n : Z) (s : string) : Z * Z * string :=
  match s with
  | String c s' =>
      if isdigit c then digits (10 * acc + digit c) (n + 1) s' else (acc, n, s)
  | EmptyString => (acc, n, s)
  end.

(** The exponent part [e[+-]ddd] of a literal, when it is there with at
    least one digit; otherwise nothing is consumed. *)
Definition exponent (s : string) : Z * string :=
  match s with
  | String c r =>
      if Ascii.eqb (tolower c) "e" then
        let '(neg, r1) := sign r in
        let '(x, nx, r2) := digits 0 0 r1 in
        if nx =? 0 then (0, s) else (if neg then - x else x, r2)
      else (0, s)
  | EmptyString => (0, s)
  end.

(** [strtod] on unsigned decimal text: digits, an optional point and
    more digits, an optional exponent. Returns the digits [m] read as
    an integer, the decimal exponent [e] (the value is [m * 10^e]) and
    the text left; [None] when there is no digit. *)
Definition strtod (s : string) : option (Z * Z * string) :=
  let '(m1, n1, r1) := digits 0 0 s in
  let '(m2, n2, r2) :=
    match r1 with
    | String "." r => digits m1 0 r
    | _ => (m1, 0, r1)
    end in
  if n1 + n2 =? 0 then None
  else let '(x, r3) := exponent r2 in Some (m2, x - n2, r3).

(** Underscores of a numeric literal: each must stand between two
    digits. Returns the text without them, [None] when one is
    misplaced. [prev] is the character before [s]. *)
Fixpoint remove_underscores (prev : ascii) (s : string) : option string :=
  match s with
  | EmptyString => if Ascii.eqb prev "_" then None else Some EmptyString
  | String c s' =>
      if Ascii.eqb c "_" then
        if isdigit prev then remove_underscores c s' else None
      else if Ascii.eqb prev "_" && negb (isdigit c) then None
      else option_map (String c) (remove_underscores c s')
  end.

(** Whitespace that [float] ignores around its argument. *)
Definition float_space (c : ascii) : bool :=
  in_range 9 13 c || (code c =? 32) || (code c =? 133) || (code c =? 160).

(** [float(s)]: surrounding whitespace is ignored; the rest is a signed
    decimal literal, [inf], [infinity] or [nan] in any letter case.
    The value is correctly rounded; a literal too large for a float64
    gives an infinity. *)
Definition float (s : string) : result F64.float64 :=
  match remove_underscores "000" (strip_with float_space s) with
  | None => Raise ValueError
  | Some t =>
      let '(neg, body) := sign t in
      let l := lower body in
      if (l =? "inf")%string || (l =? "infinity")%string then OK (S754_infinity neg)
      else if (l =? "nan")%string then OK F64.nan
      else match strtod body with
           | Some (m, e, EmptyString) => OK (F64.of_decimal neg m e)
           | _ => Raise ValueError
           end
  end.

End Py.

(** ** Cells and frames *)

(** A value held in a column of a loaded frame. [CFloat] is a float64
    (NaN included); [CNaN] is the NaN object that marks a missing value
    in a column of dtype object. *)
Inductive cell : Type :=
| CInt (z : Z)
| CFloat (f : F64.float64)
| CBool (b : bool)
| CStr (s : string)
| CNaN.

(** [pd.isnull] on one value. *)
Definition isnull (c : cell) : bool :=
  match c with
  | CNaN => true
  | CFloat f => F64.isnan f
  | _ => false
  end.

(** A row of the frame, with a price column of values in [P]: cells
    when the frame is loaded, float64 once the column is converted.
    [row] is the number of the record in the file, counted from 0: the
    index label of the row, unless the file has index columns. *)
Record Row (P : Type) : Type := mkRow {
  row : nat;
  id : cell;
  product : cell;
  price : P;
  country : cell
}.

Arguments mkRow {P} row id product price country.
Arguments row {P} r.
Arguments id {P} r.
Arguments product {P} r.
Arguments price {P} r.
Arguments country {P} r.

(** ** [pd.read_csv]

    The file is given as the records the tokenizer splits it into, each
    a list of fields (delimiters, quoting, the blanks skipped after a
    delimiter and empty lines are the tokenizer's business, and so are
    its errors, such as a quote that is not closed). The model is of the
    C engine reading the file at once, which is what pandas does on a
    file of no more rows than [buffer_lines]; see [one_chunk]. *)

Module Csv.

(** The field count that every later record is held to: that of the
    first record, and no less than the number of names. *)
Definition expected_fields (names : nat) (first : list string) : nat :=
  Nat.max (List.length first) names.

(** A record with more fields than expected is an error, except the
    first one in the file. *)
Definition too_many_fields (expected : nat) (rest : list (list string)) : bool :=
  existsb (fun r => (expected <? List.length r)%nat) rest.

(** A record with fewer fields is completed with empty ones. *)
Definition pad (expected : nat) (r : list string) : list string :=
  r ++ repeat EmptyString (expected - List.length r).

(** Columns in excess of the names are the leftmost ones and become
    the index of the frame; the names go to the columns that follow. *)
Definition named_fields (names expected : nat) (r : list string) : list string :=
  skipn (expected - names) (pad expected r).

(** The fields of the named columns, record by record; fails on a
    record with too many fields. *)
Definition tokenize (names : nat) (records : list (list string))
  : result (list (list string)) :=
  match records with
  | [] => OK []
  | first :: rest =>
      let expected := expected_fields names first in
      if too_many_fields expected rest then Raise ParserError
      else OK (map (named_fields names expected) records)
  end.

(** *** Type inference of a column *)

(** The strings read as a missing value. *)
Definition na_values : list string :=
  [ EmptyString; "#N/A"; "#N/A N/A"; "#NA"; "-1.#IND"; "-1.#QNAN"; "-NaN"; "-nan";
    "1.#IND"; "1.#QNAN"; "<NA>"; "N/A"; "NA"; "NULL"; "NaN"; "None";
    "n/a"; "nan"; "null" ].

Definition is_na (w : string) : bool := existsb (String.eqb w) na_values.

(** [isspace_ascii] of the tokenizer. *)
Definition isspace_ascii (c : ascii) : bool :=
  Py.in_range 9 13 c || (Py.code c =? 32).

Definition skip_spaces : string -> string := Py.lstrip_with isspace_ascii.

Definition int64_min : Z := - 2 ^ 63.
Definition int64_max : Z := 2 ^ 63 - 1.
Definition uint64_max : Z := 2 ^ 64 - 1.

(** What a conversion routine of the parser reports for a word or for
    a column: a value, no conversion (the next dtype is tried), an
    overflow, or a mix that no numeric dtype holds. *)
Inductive attempt (A : Type) : Type :=
| Converted (a : A)
| NoConversion
| Overflow
| Conflict.

Arguments Converted {A} a.
Arguments NoConversion {A}.
Arguments Overflow {A}.
Arguments Conflict {A}.

(** [str_to_int64]: blanks, a sign, digits, blanks. The overflow is
    noticed while the digits are read, before what follows them. *)
Definition str_to_int64 (w : string) : attempt Z :=
  let '(neg, p) := Py.sign (skip_spaces w) in
  let '(n, nd, rest) := Py.digits 0 0 p in
  if nd =? 0 then NoConversion
  else
    let z := if neg then - n else n in
    if (z <? int64_min) || (int64_max <? z) then Overflow
    else match skip_spaces rest with
         | EmptyString => Converted z
         | _ => NoConversion
         end.

(** [_try_int64]: the words of a column in order, [None] for a missing
    value; the first word that does not convert decides the outcome. *)
Fixpoint try_int64 (ws : list string) : attempt (list (option Z)) :=
  match ws with
  | [] => Converted []
  | w :: ws' =>
      if is_na w then
        match try_int64 ws' with
        | Converted l => Converted (None :: l)
        | a => a
        end
      else
        match str_to_int64 w with
        | Converted z =>
            match try_int64 ws' with
            | Converted l => Converted (Some z :: l)
            | a => a
            end
        | NoConversion => NoConversion
        | Overflow => Overflow
        | Conflict => Conflict
        end
  end.

(** [_maybe_upcast] of an int64 column: without missing values it
    stays int64; with some it becomes float64, where the missing ones
    and the value that int64 uses as their sentinel are NaN. *)
Definition upcast_int64 (l : list (option Z)) : list cell :=
  if forallb (fun o => match o with Some _ => true | None => false end) l
  then map (fun o => match o with Some z => CInt z | None => CNaN end) l
  else map (fun o => match o with
                     | Some z => CFloat (if z =? int64_min then F64.nan else F64.of_Z z)
                     | None => CFloat F64.nan
                     end) l.

(** State of the uint64 scan: a negative number was seen, a number
    above [int64_max] was seen, a missing value was seen. *)
Record uint_state : Type := mkUintState {
  seen_sint : bool;
  seen_uint : bool;
  seen_null : bool
}.

(** [str_to_uint64]: a word that starts with a minus sign is recorded
    as negative and not read further. *)
Definition str_to_uint64 (st : uint_state) (w : string) : attempt (Z * uint_state) :=
  match skip_spaces w with
  | String "-" _ => Converted (0, mkUintState true (seen_uint st) (seen_null st))
  | p =>
      let p := match p with String "+" r => r | _ => p end in
      let '(n, nd, rest) := Py.digits 0 0 p in
      if nd =? 0 then NoConversion
      else if uint64_max <? n then Overflow
      else match skip_spaces rest with
           | EmptyString =>
               Converted (n, mkUintState (seen_sint st)
                                         (seen_uint st || (int64_max <? n))
                                         (seen_null st))
           | _ => NoConversion
           end
  end.

Fixpoint scan_uint64 (st : uint_state) (ws : list string)
  : attempt (list Z * uint_state) :=
  match ws with
  | [] => Converted ([], st)
  | w :: ws' =>
      if is_na w then
        match scan_uint64 (mkUintState (seen_sint st) (seen_uint st) true) ws' with
        | Converted (l, st') => Converted (0 :: l, st')
        | a => a
        end
      else
        match str_to_uint64 st w with
        | Converted (z, st1) =>
            match scan_uint64 st1 ws' with
            | Converted (l, st') => Converted (z :: l, st')
            | a => a
            end
        | NoConversion => NoConversion
        | Overflow => Overflow
        | Conflict => Conflict
        end
  end.

(** [_try_uint64], tried when int64 overflowed. *)
Definition try_uint64 (ws : list string) : attempt (list Z) :=
  match scan_uint64 (mkUintState false false false) ws with
  | Converted (l, st) =>
      if seen_uint st && (seen_sint st || seen_null st) then Conflict
      else if seen_sint st then Overflow
      else Converted l
  | NoConversion => NoConversion
  | Overflow => Overflow
  | Conflict => Conflict
  end.

(** *** [precise_xstrtod], the float conversion of the parser *)

(** No more than 17 digits of a number are read into its value. *)
Definition max_digits : Z := 17.

(** The table [e] of the powers of ten, each the nearest float64. *)
Definition pow10 (k : Z) : F64.float64 := F64.of_decimal false 1 k.

(** [number * 10. + digit], in float64. *)
Definition push_digit (number : F64.float64) (c : ascii) : F64.float64 :=
  F64.add (F64.mul number (F64.of_Z 10)) (F64.of_Z (Py.digit c)).

(** The digits before the point: the first 17 go into [number], each
    further one adds one to the decimal exponent. *)
Fixpoint integer_digits (number : F64.float64) (num_digits exponent : Z) (s : string)
  : F64.float64 * Z * Z * string :=
  match s with
  | String c s' =>
      if Py.isdigit c then
        if num_digits <? max_digits
        then integer_digits (push_digit number c) (num_digits + 1) exponent s'
        else integer_digits number num_digits (exponent + 1) s'
      else (number, num_digits, exponent, s)
  | EmptyString => (number, num_digits, exponent, s)
  end.

(** The digits after the point: read while fewer than 17 digits are in
    [number], skipped after that. *)
Fixpoint decimal_digits (number : F64.float64) (num_digits num_decimals : Z) (s : string)
  : F64.float64 * Z * Z * string :=
  match s with
  | String c s' =>
      if Py.isdigit c then
        if num_digits <? max_digits
        then decimal_digits (push_digit number c) (num_digits + 1) (num_decimals + 1) s'
        else decimal_digits number num_digits num_decimals s'
      else (number, num_digits, num_decimals, s)
  | EmptyString => (number, num_digits, num_decimals, s)
  end.

(** The digits of the exponent, 17 at most: their number [n], how many
    were read, and the text left. *)
Fixpoint exponent_digits (n num_digits : Z) (s : string) : Z * Z * string :=
  match s with
  | String c s' =>
      if Py.isdigit c && (num_digits <? max_digits)
      then exponent_digits (10 * n + Py.digit c) (num_digits + 1) s'
      else (n, num_digits, s)
  | EmptyString => (n, num_digits, s)
  end.

(** The exponent part: the decimal exponent it adds and the text left.
    With no digit after the [e] the text left starts at the [e]. *)
Definition exponent_part (s : string) : Z * string :=
  match s with
  | String c r =>
      if Ascii.eqb (Py.tolower c) "e" then
        let '(neg, r1) := Py.sign r in
        let '(n, nd, r2) := exponent_digits 0 0 r1 in
        if nd =? 0 then (0, s) else (if neg then - n else n, r2)
      else (0, s)
  | EmptyString => (0, s)
  end.

(** The value of [number] times ten to the [exponent], as the parser
    computes it with its table; [None] is the range error. *)
Definition scale (number : F64.float64) (exponent : Z) : option F64.float64 :=
  if 308 <? exponent then None
  else
    let x :=
      if 0 <? exponent then F64.mul number (pow10 exponent)
      else if exponent <? -308 then
        if exponent <? -616 then S754_zero false
        else F64.div (F64.div number (pow10 (-308 - exponent))) (pow10 308)
      else F64.div number (pow10 (- exponent)) in
    match x with
    | S754_infinity _ => None
    | _ => Some x
    end.

(** [precise_xstrtod]: blanks, a sign, digits with an optional point, an
    optional exponent, blanks. Returns the value and the text left;
    [None] stands for an error (no digit, or a number out of range). *)
Definition precise_xstrtod (w : string) : option (F64.float64 * string) :=
  let '(neg, p) := Py.sign (skip_spaces w) in
  let '(number, nd, exponent, p) := integer_digits (S754_zero false) 0 0 p in
  let '(number, nd, num_decimals, p) :=
    match p with
    | String "." r => decimal_digits number nd 0 r
    | _ => (number, nd, 0, p)
    end in
  if nd =? 0 then None
  else
    let number := if neg then SFopp number else number in
    let '(x, p) := exponent_part p in
    match scale number (exponent - num_decimals + x) with
    | Some v => Some (v, skip_spaces p)
    | None => None
    end.

(** The float of a word, for [_try_double]: what [precise_xstrtod] reads
    when it reads the whole word without error; else an infinity, for a
    word that is [inf] or [infinity] with an optional sign, in any letter
    case. *)
Definition to_double (w : string) : option F64.float64 :=
  match precise_xstrtod w with
  | Some (x, EmptyString) => Some x
  | _ =>
      let '(neg, body) := Py.sign w in
      let l := Py.lower body in
      if (l =? "inf")%string || (l =? "infinity")%string
      then Some (S754_infinity neg) else None
  end.

(** [_try_double] *)
Fixpoint try_double (ws : list string) : option (list F64.float64) :=
  match ws with
  | [] => Some []
  | w :: ws' =>
      match (if is_na w then Some F64.nan else to_double w) with
      | Some x => option_map (cons x) (try_double ws')
      | None => None
      end
  end.

(** [to_boolean] *)
Definition to_boolean (w : string) : option bool :=
  let l := Py.lower w in
  if (l =? "true")%string then Some true
  else if (l =? "false")%string then Some false
  else None.

(** [_try_bool_flex]: [None] stands for a missing value. *)
Fixpoint try_bool (ws : list string) : option (list (option bool)) :=
  match ws with
  | [] => Some []
  | w :: ws' =>
      if is_na w then option_map (cons None) (try_bool ws')
      else match to_boolean w with
           | Some b => option_map (cons (Some b)) (try_bool ws')
           | None => None
           end
  end.

(** [_string_convert]: the words as [str], the missing ones as NaN when
    [na_filter] is on. *)
Definition string_convert (na_filter : bool) (ws : list string) : list cell :=
  map (fun w => if na_filter && is_na w then CNaN else CStr w) ws.

(** [_convert_tokens] with no dtype asked for: int64, then float64,
    then bool, then object. A bool column with missing values is held
    as objects. A column of integers that int64 and uint64 cannot hold
    is left as text. *)
Definition convert_tokens (ws : list string) : list cell :=
  let after_int :=
    match try_double ws with
    | Some l => map CFloat l
    | None =>
        match try_bool ws with
        | Some l => map (fun o => match o with Some b => CBool b | None => CNaN end) l
        | None => string_convert true ws
        end
    end in
  match try_int64 ws with
  | Converted l => upcast_int64 l
  | Overflow =>
      match try_uint64 ws with
      | Converted l => map CInt l
      | NoConversion => after_int
      | Conflict => string_convert false ws
      | Overflow => string_convert true ws
      end
  | NoConversion | Conflict => after_int
  end.

(** The rows that the reader takes at a time when it reads with
    [low_memory] (the default): the power of two that
    [while buffer_lines * 2 < heuristic] stops at, for
    [heuristic = 2**20 // table_width]. *)
Fixpoint grow_buffer (fuel : nat) (buffer_lines heuristic : Z) : Z :=
  match fuel with
  | O => buffer_lines
  | S fuel' =>
      if buffer_lines * 2 <? heuristic
      then grow_buffer fuel' (buffer_lines * 2) heuristic
      else buffer_lines
  end.

Definition buffer_lines (table_width : nat) : Z :=
  grow_buffer 20 1 (2 ^ 20 / Z.of_nat table_width).

(** A file that the reader takes at once: the types of its columns are
    inferred over the whole file. A longer file is typed piece by piece,
    and its columns can mix numbers and strings; [read_csv] below is the
    reader on a file that it takes at once. *)
Definition one_chunk (records : list (list string)) : Prop :=
  Z.of_nat (List.length records)
  <= buffer_lines (expected_fields 4 (hd [] records)).

(** The [k]-th field of each record. *)
Definition column (k : nat) (table : list (list string)) : list string :=
  map (fun r => nth k r EmptyString) table.

(** The frame: the row [i] takes the [i]-th value of each column. *)
Definition frame (c0 c1 c2 c3 : list cell) : list (Row cell) :=
  map (fun i => mkRow i (nth i c0 CNaN) (nth i c1 CNaN) (nth i c2 CNaN) (nth i c3 CNaN))
      (seq 0 (List.length c0)).

(** [pd.read_csv(input_file, header=None,
                names=["id", "product", "price", "country"],
                encoding="utf-8", skipinitialspace=True)].
    A file with no record gives the empty frame. *)
Definition read_csv (records : list (list string)) : result (list (Row cell)) :=
  table <- tokenize 4 records ;;
  OK (frame (convert_tokens (column 0 table))
            (convert_tokens (column 1 table))
            (convert_tokens (column 2 table))
            (convert_tokens (column 3 table))).

End Csv.

(** ** The pandas calls of [main] *)

Definition USD_TO_INR : Z := 83.

(** The double quote character. *)
Definition dquote : ascii := ascii_of_nat 34.

(** [series.str] on a column of one kind, which is what a file read at
    once gives ([Csv.one_chunk]): the accessor is there for a column of
    strings (missing values aside) and for an empty column; on a column
    of numbers or of booleans it raises. (pandas gives the accessor also
    to a column that mixes strings with other values, as a file read in
    pieces can have; that case is outside this model.) *)
Definition str (col : list cell) : result (list cell) :=
  if forallb (fun c => match c with CStr _ | CNaN => true | _ => false end) col
  then OK col
  else Raise AttributeError.

(** A method of [.str] applies to the strings and leaves NaN. *)
Definition str_map (f : string -> string) (col : list cell) : list cell :=
  map (fun c => match c with CStr s => CStr (f s) | _ => CNaN end) col.

(** [.str.replace(old, new, regex=False)] *)
Definition str_replace (old : ascii) (new : string) : list cell -> list cell :=
  str_map (Py.replace old new).

(** [.str.strip()] *)
Definition str_strip : list cell -> list cell := str_map Py.strip.

(** [float(x)] on the object [x]. *)
Definition float_of_cell (c : cell) : result F64.float64 :=
  match c with
  | CStr s => Py.float s
  | CNaN => OK F64.nan
  | CFloat f => OK f
  | CInt z => OK (F64.of_Z z)
  | CBool b => OK (F64.of_Z (if b then 1 else 0))
  end.

(** [series.astype(float)] on a column of objects: raises at the first
    value that [float] rejects. *)
Definition astype_float (col : list cell) : result (list F64.float64) :=
  mapM float_of_cell col.

(** [df["product"] = col] *)
Definition set_product {P : Type} (df : list (Row P)) (col : list cell) : list (Row P) :=
  map (fun rc => mkRow (row (fst rc)) (id (fst rc)) (snd rc) (price (fst rc)) (country (fst rc)))
      (combine df col).

(** [df["price"] = col] *)
Definition set_price {P Q : Type} (df : list (Row P)) (col : list Q) : list (Row Q) :=
  map (fun rc => mkRow (row (fst rc)) (id (fst rc)) (product (fst rc)) (snd rc) (country (fst rc)))
      (combine df col).

(** [df.isnull()] on one row: is a value missing in some column. *)
Definition has_null (r : Row F64.float64) : bool :=
  isnull (id r) || isnull (product r) || F64.isnan (price r) || isnull (country r).

Definition count {A : Type} (f : A -> bool) (l : list A) : nat :=
  List.length (filter f l).

(** [df.isnull().sum()]: the number of missing values in each column. *)
Record NullCounts : Type := mkNullCounts {
  null_id : nat;
  null_product : nat;
  null_price : nat;
  null_country : nat
}.

Definition isnull_sum (df : list (Row F64.float64)) : NullCounts :=
  mkNullCounts (count (fun r => isnull (id r)) df)
               (count (fun r => isnull (product r)) df)
               (count (fun r => F64.isnan (price r)) df)
               (count (fun r => isnull (country r)) df).

(** [df.dropna()]: the rows with no missing value, in order. *)
Definition dropna (df : list (Row F64.float64)) : list (Row F64.float64) :=
  filter (fun r => negb (has_null r)) df.

(** Equality of two values of a column as [duplicated] sees it: the
    equality of the values, with all missing values alike. *)
Definition same_value (a b : cell) : bool :=
  match a, b with
  | CStr s, CStr t => String.eqb s t
  | CInt x, CInt y => x =? y
  | CBool x, CBool y => Bool.eqb x y
  | CFloat x, CFloat y => F64.eqb x y || (F64.isnan x && F64.isnan y)
  | CNaN, CNaN => true
  | _, _ => false
  end.

Definition same_float (x y : F64.float64) : bool :=
  F64.eqb x y || (F64.isnan x && F64.isnan y).

(** Equality on the columns [subset=["product", "price"]]. *)
Definition same_key (a b : Row F64.float64) : bool :=
  same_value (product a) (product b) && same_float (price a) (price b).

(** [df.duplicated(subset=["product", "price"])] with [keep="first"]:
    a row is marked when a row before it has the same key. [seen] are
    the rows gone through so far. *)
Fixpoint duplicated_from (seen : list (Row F64.float64)) (df : list (Row F64.float64))
  : list bool :=
  match df with
  | [] => []
  | r :: df' => existsb (same_key r) seen :: duplicated_from (r :: seen) df'
  end.

Definition duplicated : list (Row F64.float64) -> list bool := duplicated_from [].

(** [df[mask]]: the rows where the mask is true. *)
Definition select {A : Type} (df : list A) (mask : list bool) : list A :=
  map fst (filter snd (combine df mask)).

(** [df.drop_duplicates(subset=["product", "price"])] is
    [df[~df.duplicated(subset)]]. *)
Definition drop_duplicates (df : list (Row F64.float64)) : list (Row F64.float64) :=
  select df (map negb (duplicated df)).

(** A row of the frame that is written: the columns in the order
    [id, product, price_usd, price_inr, country]. *)
Module Out.
Record Row : Type := mk {
  row : nat;
  id : cell;
  product : cell;
  price_usd : F64.float64;
  price_inr : F64.float64;
  country : cell
}.
End Out.

(** Lines 38 to 44 on one row:
    [df["price_inr"] = (df["price"] * USD_TO_INR).round(2)], the column
    [price] renamed to [price_usd], the columns put in order. *)
Definition convert (r : Row F64.float64) : Out.Row :=
  Out.mk (row r) (id r) (product r) (price r)
         (F64.round (F64.mul (price r) (F64.of_Z USD_TO_INR)) 2)
         (country r).

(** A value of the JSON text. [JDouble x] is the number that the writer
    prints for the finite float [x]: its digits, which the writer rounds
    to ten decimal places ([double_precision=10]), are not computed
    here. *)
Inductive json_value : Type :=
| JNull
| JInteger (z : Z)
| JDouble (x : F64.float64)
| JBoolean (b : bool)
| JString (s : string).

(** A float in JSON: NaN and the infinities are written [null]. *)
Definition json_of_float (x : F64.float64) : json_value :=
  match x with
  | S754_nan | S754_infinity _ => JNull
  | _ => JDouble x
  end.

Definition json_of_cell (c : cell) : json_value :=
  match c with
  | CInt z => JInteger z
  | CFloat x => json_of_float x
  | CBool b => JBoolean b
  | CStr s => JString s
  | CNaN => JNull
  end.

(** An object of the JSON array: [to_json(orient="records")] writes the
    columns of each row and not its index label. The product, a string in
    every row that is written, is kept as the cell it is. *)
Record JsonObject : Type := mkJson {
  json_id : json_value;
  json_product : cell;
  json_price_usd : json_value;
  json_price_inr : json_value;
  json_country : json_value
}.

Definition to_json (df : list Out.Row) : list JsonObject :=
  map (fun r => mkJson (json_of_cell (Out.id r)) (Out.product r)
                       (json_of_float (Out.price_usd r))
                       (json_of_float (Out.price_inr r))
                       (json_of_cell (Out.country r))) df.

(** What a run that ends well leaves: the numbers it printed, the frame
    it wrote and the JSON array written from it. *)
Record Report : Type := mkReport {
  total_rows : nat;             (* "Total number of rows in original data" *)
  null_counts : NullCounts;     (* "Number of null values per column" *)
  rows_after_dropna : nat;      (* "... after removing null values" *)
  duplicate_rows : nat;         (* "Total number of duplicate rows" *)
  rows_after_dedup : nat;       (* "... after removing duplicates" *)
  written : list Out.Row;
  json : list JsonObject
}.

(** Lines 20 to 24: the two columns cleaned. *)
Definition normalize (df : list (Row cell)) : result (list (Row F64.float64)) :=
  products <- str (map product df) ;;
  products <- str (str_replace dquote EmptyString products) ;;
  let df := set_product df (str_strip products) in
  prices <- str (map price df) ;;
  prices <- str (str_replace "$" EmptyString prices) ;;
  prices <- astype_float (str_strip prices) ;;
  OK (set_price df prices).

(** [main(input_file, output_file)], on the records of the input file. *)
Definition main (records : list (list string)) : result Report :=
  df <- Csv.read_csv records ;;
  let total := List.length df in
  df <- normalize df ;;
  let nulls := isnull_sum df in
  let df := dropna df in
  let after_dropna := List.length df in
  let dups := count (fun b => b) (duplicated df) in
  let df := drop_duplicates df in
  let after_dedup := List.length df in
  let out := map convert df in
  OK (mkReport total nulls after_dropna dups after_dedup out (to_json out)).

(** The frame as loaded and the frame after lines 20 to 24, for a run
    that gets that far (the empty frame otherwise). *)
Definition loaded (records : list (list string)) : list (Row cell) :=
  match Csv.read_csv records with
  | OK df => df
  | Raise _ => []
  end.

Definition cleaned (records : list (list string)) : list (Row F64.float64) :=
  match normalize (loaded records) with
  | OK df => df
  | Raise _ => []
  end.

(** ** Notions used in the statements *)

(** A cell that a [.str] column may hold. *)
Definition is_text (c : cell) : bool :=
  match c with
  | CStr _ | CNaN => true
  | _ => false
  end.

(** What lines 20 and 23 make of a value of a text column. *)
Definition clean_product (c : cell) : cell :=
  match c with
  | CStr s => CStr (Py.strip (Py.replace dquote EmptyString s))
  | _ => CNaN
  end.

Definition clean_price (c : cell) : cell :=
  match c with
  | CStr s => CStr (Py.strip (Py.replace "$" EmptyString s))
  | _ => CNaN
  end.

(** How a normalized row stands to the loaded row it comes from. *)
Definition normalized (r : Row cell) (r' : Row F64.float64) : Prop :=
  row r' = row r /\ id r' = id r /\ country r' = country r /\
  product r' = clean_product (product r) /\
  float_of_cell (clean_price (price r)) = OK (price r').

(** [drop_duplicates] with rows gone through before: the rows of [df]
    that are not marked. *)
Definition dedup_from (seen df : list (Row F64.float64)) : list (Row F64.float64) :=
  select df (map negb (duplicated_from seen df)).

(** The characters of a text. *)
Definition chars : string -> list ascii := list_ascii_of_string.

(** A word that the loader reads as a number: a float or integer literal,
    the integer within int64. *)
Definition numeric (w : string) : bool :=
  match Csv.str_to_int64 w with
  | Csv.Overflow | Csv.Conflict => false
  | _ => match Csv.to_double w with Some _ => true | None => false end
  end.


(** A value of a column of dtype int64 or float64. *)
Definition is_number (c : cell) : bool :=
  match c with
  | CInt _ | CFloat _ => true
  | _ => false
  end.

(** The rounding to two decimal places in the words of the
    specification: the multiple of 0.01 nearest to the value of [x] (the
    even one on a tie), as the nearest float64. *)
Definition nearest_cent (x : F64.float64) : F64.float64 :=
  match x with
  | S754_finite s m e =>
      F64.of_decimal s
        (if 0 <=? e then Zpos m * 2 ^ e * 100 else F64.rint_Z (Zpos m * 100) (- e))
        (-2)
  | _ => x
  end.

(** A price that [float] takes, once cleaned. *)
Definition price_parses (c : cell) : bool :=
  match float_of_cell (clean_price c) with
  | OK _ => true
  | Raise _ => false
  end.

(** A value of a column of booleans, missing values included. *)
Definition is_flag (c : cell) : bool :=
  match c with
  | CBool _ | CNaN => true
  | _ => false
  end.

(** A text made of whitespace only. *)
Definition all_space (s : string) : bool := forallb Py.isspace (chars s).

(** ** A sample file

    Six records: a quoted product, a product with blanks around it, a
    duplicate of the first record under another id, an empty price, a
    price that reads as NaN and a record that lacks its country. *)

Definition sample_records : list (list string) :=
  [ ["1"; String dquote ("Widget" ++ String dquote EmptyString); "$10.00"; "US"];
    ["2"; " Gadget "; "$5.5"; "IN"];
    ["3"; "Widget"; "10"; "IN"];
    ["4"; "Gizmo"; EmptyString; "UK"];
    ["5"; "Bolt"; "$nan"; "US"];
    ["6"; "Nut"; "$2"] ].

Definition empty_report : Report :=
  mkReport 0 (mkNullCounts 0 0 0 0) 0 0 0 [] [].

Definition sample_report : Report :=
  Eval vm_compute in
    match main sample_records with
    | OK rep => rep
    | Raise _ => empty_report
    end.

Definition sample_object : JsonObject :=
  Eval vm_compute in
    match json sample_report with
    | o :: _ => o
    | [] => mkJson JNull CNaN JNull JNull JNull
    end.

(** * Properties *)

(** ** Lists, masks and counts *)

Section Lists.
Context {A : Type}.

Lemma select_nil_r (l : list A) : select l [] = [].
Proof. destruct l; reflexivity. Qed.

Lemma select_cons (a : A) (l : list A) (b : bool) (m : list bool) :
  select (a :: l) (b :: m) = if b then a :: select l m else select l m.
Proof. unfold select; simpl; destruct b; reflexivity. Qed.

Lemma select_In (l : list A) (m : list bool) (x : A) :
  In x (select l m) -> In x l.
Proof.
  revert m; induction l as [|a l IH]; intros [|b m] H;
    try (rewrite ?select_nil_r in H; simpl in H; contradiction).
  rewrite select_cons in H. destruct b.
  - destruct H as [->|H]; [left; reflexivity | right; eauto].
  - right; eauto.
Qed.

Lemma select_sorted {B : Type} (R : B -> B -> Prop) (f : A -> B)
      (l : list A) (m : list bool) :
  StronglySorted R (map f l) -> StronglySorted R (map f (select l m)).
Proof.
  revert m; induction l as [|a l IH]; intros [|b m] H;
    rewrite ?select_nil_r; try (simpl; constructor).
  simpl in H. inversion H as [|? ? Hs Hall]; subst.
  rewrite select_cons. destruct b; [|auto].
  simpl. constructor; [auto|].
  rewrite Forall_forall in *. intros y Hy.
  apply in_map_iff in Hy. destruct Hy as (x & <- & Hx).
  apply Hall, in_map, (select_In _ _ _ Hx).
Qed.

Lemma filter_sorted {B : Type} (R : B -> B -> Prop) (f : A -> B)
      (p : A -> bool) (l : list A) :
  StronglySorted R (map f l) -> StronglySorted R (map f (filter p l)).
Proof.
  induction l as [|a l IH]; intros H; simpl; [constructor|].
  simpl in H. inversion H as [|? ? Hs Hall]; subst.
  destruct (p a); [|auto].
  simpl. constructor; [auto|].
  rewrite Forall_forall in *. intros y Hy.
  apply in_map_iff in Hy. destruct Hy as (x & <- & Hx).
  apply Hall, in_map. apply filter_In in Hx. tauto.
Qed.

Lemma count_filter_length (p : A -> bool) (l : list A) :
  (List.length (filter (fun a => negb (p a)) l) + count p l = List.length l)%nat.
Proof.
  unfold count. induction l as [|a l IH]; simpl; [reflexivity|].
  destruct (p a); simpl; lia.
Qed.

Lemma select_negb_length (l : list A) (m : list bool) :
  List.length m = List.length l ->
  (List.length (select l (map negb m)) + count (fun b => b) m = List.length l)%nat.
Proof.
  unfold count. revert m; induction l as [|a l IH]; intros [|b m] H;
    simpl in H; try discriminate; [reflexivity|].
  simpl map. rewrite select_cons.
  specialize (IH m ltac:(lia)). destruct b; simpl; lia.
Qed.

Lemma mapM_Forall2 {B : Type} (f : A -> result B) (l : list A) (l' : list B) :
  mapM f l = OK l' -> Forall2 (fun a b => f a = OK b) l l'.
Proof.
  revert l'; induction l as [|a l IH]; simpl; intros l' H.
  - inversion H; constructor.
  - destruct (f a) as [b|e] eqn:Ea; simpl in H; [|discriminate].
    destruct (mapM f l) as [bs|e] eqn:El; simpl in H; [|discriminate].
    inversion H; subst. constructor; auto.
Qed.

Lemma mapM_raise {B : Type} (f : A -> result B) (l : list A) (a : A) (e : error) :
  In a l -> f a = Raise e -> (forall x e', f x = Raise e' -> e' = e) ->
  mapM f l = Raise e.
Proof.
  intros Hin Ha Hall. induction l as [|x l IH]; simpl; [contradiction|].
  destruct (f x) as [b|e'] eqn:Ex; simpl.
  - destruct Hin as [->|Hin]; [congruence|].
    rewrite (IH Hin). reflexivity.
  - f_equal. eauto.
Qed.

End Lists.

(** ** Equality of floats and of keys *)

Lemma F64_eqb_true (x y : F64.float64) :
  F64.eqb x y = true ->
  x = y \/ (exists s t, x = S754_zero s /\ y = S754_zero t).
Proof.
  unfold F64.eqb, SFeqb.
  destruct x as [s| s | |s m e], y as [t|t| |t n e']; simpl;
    try discriminate; try (destruct s; discriminate); try (destruct t; discriminate).
  - intros _. right; eauto.
  - destruct s, t; try discriminate; intros _; left; reflexivity.
  - destruct s, t; try discriminate;
      destruct (Z.compare_spec e e'); try discriminate; subst;
      fold (Pos.compare m n); destruct (Pos.compare_spec m n);
      try discriminate; subst; intros _; left; reflexivity.
Qed.

Lemma F64_eqb_refl (x : F64.float64) : F64.isnan x = false -> F64.eqb x x = true.
Proof.
  unfold F64.eqb, SFeqb.
  destruct x as [s|s| |s m e]; simpl; try discriminate; intros _;
    try reflexivity; try (destruct s; reflexivity).
  destruct s; rewrite Z.compare_refl, Pos.compare_cont_refl; reflexivity.
Qed.

Lemma F64_eqb_nan_l (x y : F64.float64) : F64.eqb x y = true -> F64.isnan x = false.
Proof. destruct x; simpl; try reflexivity. destruct y; discriminate. Qed.

Lemma F64_eqb_nan_r (x y : F64.float64) : F64.eqb x y = true -> F64.isnan y = false.
Proof.
  destruct y; simpl; try reflexivity.
  unfold F64.eqb, SFeqb. destruct x; discriminate.
Qed.

Lemma F64_eqb_zero (s t : bool) : F64.eqb (S754_zero s) (S754_zero t) = true.
Proof. reflexivity. Qed.

Lemma same_float_refl (x : F64.float64) : same_float x x = true.
Proof.
  unfold same_float. destruct (F64.isnan x) eqn:E.
  - rewrite orb_true_r; reflexivity.
  - rewrite F64_eqb_refl; auto.
Qed.

Lemma same_float_spec (x y : F64.float64) :
  same_float x y = true <->
  x = y \/ (exists s t, x = S754_zero s /\ y = S754_zero t).
Proof.
  unfold same_float. split.
  - intros H. apply orb_true_iff in H. destruct H as [H|H].
    + apply F64_eqb_true; assumption.
    + apply andb_true_iff in H. destruct H as [Hx Hy].
      destruct x; try discriminate. destruct y; try discriminate. left; reflexivity.
  - intros [->|(s & t & -> & ->)]; [apply same_float_refl | reflexivity].
Qed.

Lemma same_float_sym (x y : F64.float64) : same_float x y = true -> same_float y x = true.
Proof.
  rewrite !same_float_spec. intros [->|(s & t & -> & ->)]; [left; reflexivity|].
  right; eauto.
Qed.

Lemma same_float_trans (x y z : F64.float64) :
  same_float x y = true -> same_float y z = true -> same_float x z = true.
Proof.
  rewrite !same_float_spec.
  intros [Hxy|(s & t & Hx & Hy)] [Hyz|(s' & t' & Hy' & Hz)]; subst; eauto.
Qed.

Lemma same_value_spec (a b : cell) :
  same_value a b = true <->
  a = b \/ (exists s t, a = CFloat (S754_zero s) /\ b = CFloat (S754_zero t)).
Proof.
  destruct a, b; simpl; split; try discriminate;
    try (intros [H|(? & ? & H & H')]; discriminate).
  - intros H. apply Z.eqb_eq in H. subst; auto.
  - intros [H|(? & ? & H & _)]; [inversion H; apply Z.eqb_refl | discriminate].
  - intros H. fold (same_float f f0) in H. apply same_float_spec in H.
    destruct H as [->|(s & t & -> & ->)]; [auto | right; eauto].
  - intros H. fold (same_float f f0). apply same_float_spec.
    destruct H as [H|(s & t & H & H')]; [inversion H; auto | ].
    inversion H; inversion H'; right; eauto.
  - intros H. apply Bool.eqb_prop in H. subst; auto.
  - intros [H|(? & ? & H & _)]; [inversion H; apply Bool.eqb_reflx | discriminate].
  - intros H. apply String.eqb_eq in H. subst; auto.
  - intros [H|(? & ? & H & _)]; [inversion H; apply String.eqb_refl | discriminate].
  - auto.
  - auto.
Qed.

Lemma same_value_refl (a : cell) : same_value a a = true.
Proof. apply same_value_spec; auto. Qed.

Lemma same_value_sym (a b : cell) : same_value a b = true -> same_value b a = true.
Proof.
  rewrite !same_value_spec. intros [->|(s & t & -> & ->)]; [auto | right; eauto].
Qed.

Lemma same_value_trans (a b c : cell) :
  same_value a b = true -> same_value b c = true -> same_value a c = true.
Proof.
  rewrite !same_value_spec.
  intros [Hab|(s & t & Ha & Hb)] [Hbc|(s' & t' & Hb' & Hc)]; subst; eauto.
Qed.

Lemma same_key_refl (a : Row F64.float64) : same_key a a = true.
Proof. unfold same_key. rewrite same_value_refl, same_float_refl. reflexivity. Qed.

Lemma same_key_sym (a b : Row F64.float64) : same_key a b = true -> same_key b a = true.
Proof.
  unfold same_key. rewrite !andb_true_iff.
  intros [H1 H2]. split; [apply same_value_sym | apply same_float_sym]; assumption.
Qed.

Lemma same_key_trans (a b c : Row F64.float64) :
  same_key a b = true -> same_key b c = true -> same_key a c = true.
Proof.
  unfold same_key. rewrite !andb_true_iff.
  intros [H1 H2] [H3 H4].
  split; [eapply same_value_trans | eapply same_float_trans]; eassumption.
Qed.

(** ** The loader *)

Lemma try_int64_length (ws : list string) (l : list (option Z)) :
  Csv.try_int64 ws = Csv.Converted l -> List.length l = List.length ws.
Proof.
  revert l; induction ws as [|w ws IH]; simpl; intros l H.
  - inversion H; reflexivity.
  - destruct (Csv.is_na w).
    + destruct (Csv.try_int64 ws); try discriminate.
      inversion H; subst; simpl; f_equal; auto.
    + destruct (Csv.str_to_int64 w); try discriminate.
      destruct (Csv.try_int64 ws); try discriminate.
      inversion H; subst; simpl; f_equal; auto.
Qed.

Lemma scan_uint64_length (ws : list string) (st st' : Csv.uint_state) (l : list Z) :
  Csv.scan_uint64 st ws = Csv.Converted (l, st') -> List.length l = List.length ws.
Proof.
  revert st l; induction ws as [|w ws IH]; simpl; intros st l H.
  - inversion H; reflexivity.
  - destruct (Csv.is_na w).
    + destruct (Csv.scan_uint64 _ ws) as [[l1 st1]| | |] eqn:E; try discriminate.
      inversion H; subst; simpl; f_equal; eauto.
    + destruct (Csv.str_to_uint64 st w) as [[z st1]| | |]; try discriminate.
      destruct (Csv.scan_uint64 st1 ws) as [[l1 st2]| | |] eqn:E; try discriminate.
      inversion H; subst; simpl; f_equal; eauto.
Qed.

Lemma try_uint64_length (ws : list string) (l : list Z) :
  Csv.try_uint64 ws = Csv.Converted l -> List.length l = List.length ws.
Proof.
  unfold Csv.try_uint64.
  destruct (Csv.scan_uint64 _ ws) as [[l1 st1]| | |] eqn:E; try discriminate.
  destruct (_ && _); [discriminate|]. destruct (Csv.seen_sint st1); [discriminate|].
  intros H; inversion H; subst. eapply scan_uint64_length; eassumption.
Qed.

Lemma try_double_length (ws : list string) (l : list F64.float64) :
  Csv.try_double ws = Some l -> List.length l = List.length ws.
Proof.
  revert l; induction ws as [|w ws IH]; simpl; intros l H.
  - inversion H; reflexivity.
  - destruct (if Csv.is_na w then _ else _); [|discriminate].
    destruct (Csv.try_double ws); [|discriminate].
    inversion H; subst; simpl; f_equal; auto.
Qed.

Lemma try_bool_length (ws : list string) (l : list (option bool)) :
  Csv.try_bool ws = Some l -> List.length l = List.length ws.
Proof.
  revert l; induction ws as [|w ws IH]; simpl; intros l H.
  - inversion H; reflexivity.
  - destruct (Csv.is_na w).
    + destruct (Csv.try_bool ws); [|discriminate].
      inversion H; subst; simpl; f_equal; auto.
    + destruct (Csv.to_boolean w); [|discriminate].
      destruct (Csv.try_bool ws); [|discriminate].
      inversion H; subst; simpl; f_equal; auto.
Qed.

Lemma convert_tokens_length (ws : list string) :
  List.length (Csv.convert_tokens ws) = List.length ws.
Proof.
  assert (Hafter :
    List.length
      match Csv.try_double ws with
      | Some l => map CFloat l
      | None =>
          match Csv.try_bool ws with
          | Some l => map (fun o => match o with Some b => CBool b | None => CNaN end) l
          | None => Csv.string_convert true ws
          end
      end = List.length ws).
  { destruct (Csv.try_double ws) eqn:Ed.
    - rewrite length_map. apply try_double_length; assumption.
    - destruct (Csv.try_bool ws) eqn:Eb.
      + rewrite length_map. apply try_bool_length; assumption.
      + unfold Csv.string_convert. apply length_map. }
  unfold Csv.convert_tokens.
  destruct (Csv.try_int64 ws) eqn:Ei; try assumption.
  - unfold Csv.upcast_int64. destruct (forallb _ a); rewrite length_map;
      apply try_int64_length; assumption.
  - destruct (Csv.try_uint64 ws) eqn:Eu; try assumption;
      unfold Csv.string_convert; rewrite length_map; try reflexivity.
    apply try_uint64_length; assumption.
Qed.

Lemma tokenize_length (n : nat) (records table : list (list string)) :
  Csv.tokenize n records = OK table -> List.length table = List.length records.
Proof.
  unfold Csv.tokenize. destruct records as [|first rest].
  - intros H; inversion H; reflexivity.
  - destruct (Csv.too_many_fields _ rest); [discriminate|].
    intros H; inversion H. simpl. f_equal. apply length_map.
Qed.

Lemma frame_rows (c0 c1 c2 c3 : list cell) :
  map row (Csv.frame c0 c1 c2 c3) = seq 0 (List.length c0).
Proof.
  unfold Csv.frame. rewrite map_map. simpl. apply map_id.
Qed.

Lemma read_csv_rows (records : list (list string)) (df : list (Row cell)) :
  Csv.read_csv records = OK df -> map row df = seq 0 (List.length records).
Proof.
  unfold Csv.read_csv. destruct (Csv.tokenize 4 records) as [table|e] eqn:Et; simpl;
    [|discriminate].
  intros H; inversion H; subst. rewrite frame_rows, convert_tokens_length.
  unfold Csv.column. rewrite length_map.
  f_equal. eapply tokenize_length; eassumption.
Qed.

Lemma read_csv_length (records : list (list string)) (df : list (Row cell)) :
  Csv.read_csv records = OK df -> List.length df = List.length records.
Proof.
  intros H. apply read_csv_rows in H.
  rewrite <- (length_map row df), H. apply length_seq.
Qed.

(** In a frame whose labels count up from 0, a row is found at its label. *)
Lemma nth_error_label {P : Type} (df : list (Row P)) (n : nat) (r : Row P) :
  map row df = seq 0 n -> In r df -> nth_error df (row r) = Some r.
Proof.
  intros Hrows Hin. apply In_nth_error in Hin. destruct Hin as (i & Hi).
  assert (Hr : nth_error (map row df) i = Some (row r))
    by (rewrite nth_error_map, Hi; reflexivity).
  rewrite Hrows in Hr.
  assert (Hlt : (i < n)%nat).
  { assert (Hs : nth_error (seq 0 n) i <> None) by congruence.
    apply nth_error_Some in Hs. rewrite length_seq in Hs. assumption. }
  rewrite nth_error_seq in Hr.
  destruct (Nat.ltb_spec i n); [|lia]. inversion Hr. simpl in *. subst i. assumption.
Qed.

Lemma sorted_seq (a n : nat) : StronglySorted Nat.lt (seq a n).
Proof.
  revert a; induction n as [|n IH]; intros a; simpl; constructor; [apply IH|].
  apply Forall_forall. intros x Hx. apply in_seq in Hx. unfold Nat.lt. lia.
Qed.

Lemma map_nth_seq {A : Type} (l : list A) (d : A) :
  map (fun i => nth i l d) (seq 0 (List.length l)) = l.
Proof.
  apply (nth_ext _ _ (nth 0%nat l d) d).
  - rewrite length_map, length_seq; reflexivity.
  - intros n Hn. rewrite length_map, length_seq in Hn.
    rewrite (map_nth (fun i => nth i l d)), seq_nth by assumption. reflexivity.
Qed.

Lemma frame_product (c0 c1 c2 c3 : list cell) :
  List.length c1 = List.length c0 -> map product (Csv.frame c0 c1 c2 c3) = c1.
Proof.
  intros H. unfold Csv.frame. rewrite map_map. simpl. rewrite <- H. apply map_nth_seq.
Qed.

Lemma frame_price (c0 c1 c2 c3 : list cell) :
  List.length c2 = List.length c0 -> map price (Csv.frame c0 c1 c2 c3) = c2.
Proof.
  intros H. unfold Csv.frame. rewrite map_map. simpl. rewrite <- H. apply map_nth_seq.
Qed.


Lemma str_spec (col : list cell) :
  str col = if forallb is_text col then OK col else Raise AttributeError.
Proof. reflexivity. Qed.

Lemma str_str_map (f : string -> string) (col : list cell) :
  str (str_map f col) = OK (str_map f col).
Proof.
  rewrite str_spec.
  replace (forallb is_text (str_map f col)) with true; [reflexivity|].
  symmetry. apply forallb_forall. intros c Hc.
  unfold str_map in Hc. apply in_map_iff in Hc.
  destruct Hc as ([] & <- & _); reflexivity.
Qed.


(** ** The normalizer *)

Lemma combine_map_r {A B : Type} (f : A -> B) (l : list A) :
  combine l (map f l) = map (fun a => (a, f a)) l.
Proof. induction l; simpl; congruence. Qed.

Lemma set_product_map {P : Type} (g : cell -> cell) (df : list (Row P)) :
  set_product df (map g (map product df)) =
  map (fun r => mkRow (row r) (id r) (g (product r)) (price r) (country r)) df.
Proof.
  unfold set_product. rewrite map_map, combine_map_r, map_map. reflexivity.
Qed.

Lemma set_price_Forall2 (df : list (Row cell)) (prices : list F64.float64) :
  Forall2 (fun r p => float_of_cell (clean_price (price r)) = OK p) df prices ->
  Forall2 (fun r r' => row r' = row r /\ id r' = id r /\ country r' = country r /\
                       product r' = product r /\
                       float_of_cell (clean_price (price r)) = OK (price r'))
          df (set_price df prices).
Proof.
  induction 1; simpl; constructor; simpl; auto.
Qed.

Lemma Forall2_map_l {A B C : Type} (R : B -> C -> Prop) (f : A -> B)
      (l : list A) (l' : list C) :
  Forall2 R (map f l) l' <-> Forall2 (fun a c => R (f a) c) l l'.
Proof.
  split.
  - revert l'; induction l; intros l' H; inversion H; subst; constructor; auto.
  - induction 1; simpl; constructor; auto.
Qed.

Lemma set_product_clean (df : list (Row cell)) :
  set_product df (str_strip (str_replace dquote EmptyString (map product df))) =
  map (fun r => mkRow (row r) (id r) (clean_product (product r)) (price r) (country r)) df.
Proof.
  unfold str_strip, str_replace, str_map. rewrite map_map, set_product_map.
  apply map_ext. intros r. unfold clean_product. destruct (product r); reflexivity.
Qed.

Lemma str_clean_price (col : list cell) :
  str_strip (str_replace "$" EmptyString col) = map clean_price col.
Proof.
  unfold str_strip, str_replace, str_map. rewrite map_map.
  apply map_ext. intros c. destruct c; reflexivity.
Qed.

Lemma normalize_spec (df : list (Row cell)) (clean : list (Row F64.float64)) :
  normalize df = OK clean ->
  Forall2 normalized df clean /\
  forallb is_text (map product df) = true /\
  forallb is_text (map price df) = true.
Proof.
  unfold normalize. rewrite (str_spec (map product df)).
  destruct (forallb is_text (map product df)) eqn:Hp; simpl; [|discriminate].
  unfold str_replace at 1. rewrite str_str_map. simpl.
  fold (str_replace dquote EmptyString (map product df)).
  rewrite set_product_clean.
  set (df1 := map _ df).
  assert (Hprice : map price df1 = map price df)
    by (unfold df1; rewrite map_map; reflexivity).
  rewrite Hprice, (str_spec (map price df)).
  destruct (forallb is_text (map price df)) eqn:Hq; simpl; [|discriminate].
  unfold str_replace at 1. rewrite str_str_map. simpl.
  fold (str_replace "$" EmptyString (map price df)).
  rewrite str_clean_price.
  destruct (astype_float _) as [prices|e] eqn:Ea; simpl; [|discriminate].
  intros H; inversion H; subst clean. split; [|auto].
  apply mapM_Forall2 in Ea.
  rewrite <- Hprice, map_map in Ea. apply Forall2_map_l in Ea.
  apply set_price_Forall2 in Ea.
  unfold df1 in Ea at 1. apply Forall2_map_l in Ea.
  eapply Forall2_impl; [|exact Ea].
  intros r r'. simpl. unfold normalized. tauto.
Qed.


Lemma Forall2_In_r {A B : Type} (R : A -> B -> Prop) (l : list A) (l' : list B) (b : B) :
  Forall2 R l l' -> In b l' -> exists a, In a l /\ R a b.
Proof.
  induction 1 as [|x y l l' Hxy _ IH]; intros Hin; [contradiction|].
  destruct Hin as [->|Hin]; [exists x; split; [left; reflexivity | assumption]|].
  destruct (IH Hin) as (a & Ha & HR). exists a. split; [right|]; assumption.
Qed.

Lemma float_raise (s : string) (e : error) : Py.float s = Raise e -> e = ValueError.
Proof.
  unfold Py.float.
  destruct (Py.remove_underscores _ _) as [t|]; [|intros H; inversion H; reflexivity].
  destruct (Py.sign t) as [neg body].
  destruct (_ || _); [discriminate|]. destruct (_ =? _)%string; [discriminate|].
  destruct (Py.strtod body) as [[[m ex] []]|]; intros H; inversion H; reflexivity.
Qed.

Lemma float_of_cell_raise (c : cell) (e : error) :
  float_of_cell c = Raise e -> e = ValueError.
Proof. destruct c; simpl; try discriminate. apply float_raise. Qed.

Lemma mapM_raise_kind {A B : Type} (f : A -> result B) (l : list A) (e e' : error) :
  (forall x e0, f x = Raise e0 -> e0 = e) -> mapM f l = Raise e' -> e' = e.
Proof.
  intros Hf. induction l as [|a l IH]; simpl; [discriminate|].
  destruct (f a) as [b|e0] eqn:Ea; simpl.
  - destruct (mapM f l); simpl; [discriminate|].
    intros H; inversion H; subst. apply IH; reflexivity.
  - intros H; inversion H; subst. eauto.
Qed.

Lemma astype_float_raise (col : list cell) (e : error) :
  astype_float col = Raise e -> e = ValueError.
Proof. apply mapM_raise_kind. apply float_of_cell_raise. Qed.



(** ** The run as a whole *)

Lemma main_OK (records : list (list string)) (rep : Report) :
  main records = OK rep ->
  Csv.read_csv records = OK (loaded records) /\
  normalize (loaded records) = OK (cleaned records) /\
  let kept := dropna (cleaned records) in
  let out := map convert (drop_duplicates kept) in
  rep = mkReport (List.length (loaded records)) (isnull_sum (cleaned records))
                 (List.length kept) (count (fun b => b) (duplicated kept))
                 (List.length (drop_duplicates kept)) out (to_json out).
Proof.
  unfold main, cleaned, loaded.
  destruct (Csv.read_csv records) as [df|e]; simpl; [|discriminate].
  destruct (normalize df) as [clean|e]; simpl; [|discriminate].
  intros H; inversion H; auto.
Qed.


Lemma normalized_rows (df : list (Row cell)) (clean : list (Row F64.float64)) :
  Forall2 normalized df clean -> map row clean = map row df.
Proof. induction 1 as [|r r' ? ? (H & _)]; simpl; congruence. Qed.

Lemma cleaned_rows (records : list (list string)) (rep : Report) :
  main records = OK rep ->
  map row (cleaned records) = seq 0 (List.length records).
Proof.
  intros H. apply main_OK in H. destruct H as (Hr & Hn & _).
  apply normalize_spec in Hn. destruct Hn as (Hall & _).
  rewrite (normalized_rows _ _ Hall). apply read_csv_rows; assumption.
Qed.

(** ** The deduplicator *)

Lemma dedup_from_cons (seen : list (Row F64.float64)) (r : Row F64.float64)
      (df : list (Row F64.float64)) :
  dedup_from seen (r :: df) =
  if existsb (same_key r) seen then dedup_from (r :: seen) df
  else r :: dedup_from (r :: seen) df.
Proof.
  unfold dedup_from. simpl. rewrite select_cons.
  destruct (existsb (same_key r) seen); reflexivity.
Qed.

Lemma duplicated_from_length (seen df : list (Row F64.float64)) :
  List.length (duplicated_from seen df) = List.length df.
Proof. revert seen; induction df; simpl; intros; auto. Qed.

Lemma dedup_from_In (seen df : list (Row F64.float64)) (x : Row F64.float64) :
  In x (dedup_from seen df) -> In x df /\ existsb (same_key x) seen = false.
Proof.
  revert seen; induction df as [|r df IH]; intros seen H.
  - unfold dedup_from in H. simpl in H. contradiction.
  - rewrite dedup_from_cons in H.
    destruct (existsb (same_key r) seen) eqn:Er.
    + apply IH in H. simpl in H. destruct H as (H1 & H2).
      apply orb_false_iff in H2. split; [right; tauto | tauto].
    + destruct H as [->|H]; [split; [left; reflexivity | assumption]|].
      apply IH in H. simpl in H. destruct H as (H1 & H2).
      apply orb_false_iff in H2. split; [right; tauto | tauto].
Qed.

Lemma same_key_false_sym (a b : Row F64.float64) :
  same_key a b = false -> same_key b a = false.
Proof.
  intros H. destruct (same_key b a) eqn:E; [|reflexivity].
  apply same_key_sym in E. congruence.
Qed.

(** No two rows that are kept have the same key. *)
Lemma dedup_from_distinct (seen df : list (Row F64.float64)) :
  ForallOrdPairs (fun a b => same_key a b = false) (dedup_from seen df).
Proof.
  revert seen; induction df as [|r df IH]; intros seen.
  - constructor.
  - rewrite dedup_from_cons. destruct (existsb (same_key r) seen); [apply IH|].
    constructor; [|apply IH].
    apply Forall_forall. intros x Hx. apply dedup_from_In in Hx.
    destruct Hx as (_ & Hx). simpl in Hx. apply orb_false_iff in Hx.
    apply same_key_false_sym. tauto.
Qed.

Lemma sorted_head {P : Type} (r : Row P) (df : list (Row P)) (x : Row P) :
  StronglySorted Nat.lt (map row (r :: df)) -> In x df -> (row r < row x)%nat.
Proof.
  simpl. intros H Hx. inversion H as [|? ? _ Hall]; subst.
  rewrite Forall_forall in Hall. apply Hall, in_map, Hx.
Qed.

Lemma sorted_tail {P : Type} (r : Row P) (df : list (Row P)) :
  StronglySorted Nat.lt (map row (r :: df)) -> StronglySorted Nat.lt (map row df).
Proof. simpl. intros H. inversion H; assumption. Qed.

(** A row that is kept is the first of its key. *)
Lemma dedup_from_first (seen df : list (Row F64.float64)) (y x : Row F64.float64) :
  StronglySorted Nat.lt (map row df) ->
  In y (dedup_from seen df) -> In x df -> same_key x y = true ->
  (row y <= row x)%nat.
Proof.
  revert seen; induction df as [|r df IH]; intros seen Hs Hy Hx Hk;
    [contradiction|].
  rewrite dedup_from_cons in Hy.
  assert (Htail : In y (dedup_from (r :: seen) df) -> (row y <= row x)%nat).
  { intros Hy'. destruct Hx as [->|Hx].
    - apply dedup_from_In in Hy'. destruct Hy' as (_ & Hy'). simpl in Hy'.
      apply orb_false_iff in Hy'. apply same_key_sym in Hk. destruct Hy'; congruence.
    - eapply IH; eauto using sorted_tail. }
  destruct (existsb (same_key r) seen); [auto|].
  destruct Hy as [<-|Hy]; [|auto].
  destruct Hx as [->|Hx]; [lia|].
  pose proof (sorted_head _ _ _ Hs Hx). lia.
Qed.

(** Every row has a kept row of its key, at or before it. *)
Lemma dedup_from_covers (seen df : list (Row F64.float64)) (x : Row F64.float64) :
  StronglySorted Nat.lt (map row df) -> In x df ->
  existsb (same_key x) seen = true \/
  exists y, In y (dedup_from seen df) /\ same_key x y = true /\ (row y <= row x)%nat.
Proof.
  revert seen; induction df as [|r df IH]; intros seen Hs Hx; [contradiction|].
  rewrite dedup_from_cons.
  destruct Hx as [->|Hx].
  - destruct (existsb (same_key x) seen) eqn:Ex; [left; reflexivity|].
    right. exists x. split; [left; reflexivity|].
    split; [apply same_key_refl | lia].
  - destruct (IH (r :: seen) (sorted_tail _ _ Hs) Hx) as [Hseen|(y & Hy & Hk & Hle)].
    + simpl in Hseen. apply orb_true_iff in Hseen. destruct Hseen as [Hr|Hseen]; [|auto].
      destruct (existsb (same_key r) seen) eqn:Er.
      * left. apply existsb_exists in Er. destruct Er as (z & Hz & Hrz).
        apply existsb_exists. exists z. split; [assumption|].
        eapply same_key_trans; eassumption.
      * right. exists r. split; [left; reflexivity|]. split; [assumption|].
        pose proof (sorted_head _ _ _ Hs Hx). lia.
    + right. exists y. split; [|auto].
      destruct (existsb (same_key r) seen); [assumption | right; assumption].
Qed.

Lemma drop_duplicates_dedup (df : list (Row F64.float64)) :
  drop_duplicates df = dedup_from [] df.
Proof. reflexivity. Qed.

(** ** Text *)

Lemma replace_chars (old : ascii) (s : string) (c : ascii) :
  In c (chars (Py.replace old EmptyString s)) -> c <> old /\ In c (chars s).
Proof.
  induction s as [|a s IH]; simpl; [contradiction|].
  destruct (Ascii.eqb_spec a old) as [->|Hne]; simpl.
  - intros H. destruct (IH H). auto.
  - intros [<-|H]; [auto|]. destruct (IH H). auto.
Qed.

Section StripFacts.
Variable space : ascii -> bool.

Lemma lstrip_chars (s : string) (c : ascii) :
  In c (chars (Py.lstrip_with space s)) -> In c (chars s).
Proof.
  induction s as [|a s IH]; simpl; [contradiction|].
  destruct (space a); simpl; tauto.
Qed.

Lemma rstrip_chars (s : string) (c : ascii) :
  In c (chars (Py.rstrip_with space s)) -> In c (chars s).
Proof.
  induction s as [|a s IH]; simpl; [contradiction|].
  destruct (Py.rstrip_with space s) as [|b t].
  - destruct (space a); simpl; [contradiction | tauto].
  - simpl in *. intros [H|H]; auto.
Qed.

Lemma strip_chars (s : string) (c : ascii) :
  In c (chars (Py.strip_with space s)) -> In c (chars s).
Proof. intros H. apply lstrip_chars, rstrip_chars, H. Qed.

Lemma lstrip_head (s : string) (c : ascii) (t : string) :
  Py.lstrip_with space s = String c t -> space c = false.
Proof.
  induction s as [|a s IH]; simpl; [discriminate|].
  destruct (space a) eqn:Ea; [assumption|].
  intros H; inversion H; subst; assumption.
Qed.

Lemma rstrip_head (s : string) (c : ascii) (t : string) :
  Py.rstrip_with space s = String c t -> exists s', s = String c s'.
Proof.
  destruct s as [|a s]; simpl; [discriminate|].
  destruct (Py.rstrip_with space s).
  - destruct (space a); [discriminate|]. intros H; inversion H; eauto.
  - intros H; inversion H; eauto.
Qed.

Lemma rstrip_last (s t : string) (c : ascii) :
  Py.rstrip_with space s = (t ++ String c EmptyString)%string -> space c = false.
Proof.
  revert t; induction s as [|a s IH]; intros t; simpl.
  - destruct t; discriminate.
  - destruct (Py.rstrip_with space s) as [|b u] eqn:Er.
    + destruct (space a) eqn:Ea; [destruct t; discriminate|].
      destruct t as [|x t]; simpl; intros H; inversion H; subst; [assumption|].
      destruct t; discriminate.
    + destruct t as [|x t]; simpl; intros H; inversion H; subst.
      eapply IH. eassumption.
Qed.

(** A stripped text neither starts nor ends with a character of the
    stripped class. *)
Lemma strip_head (s : string) (c : ascii) (t : string) :
  Py.strip_with space s = String c t -> space c = false.
Proof.
  unfold Py.strip_with. intros H.
  destruct (rstrip_head _ _ _ H) as (s' & Hs). eapply lstrip_head; eassumption.
Qed.

Lemma strip_last (s t : string) (c : ascii) :
  Py.strip_with space s = (t ++ String c EmptyString)%string -> space c = false.
Proof. unfold Py.strip_with. apply rstrip_last. Qed.

End StripFacts.

(** ** Rounding *)

(** [rint_Z m k] is an integer nearest to [m / 2^k], and the even one of
    the two when [m / 2^k] is halfway between them. *)
Lemma rint_Z_nearest_even (m k : Z) :
  0 <= k ->
  let n := F64.rint_Z m k in
  2 * Z.abs (n * 2 ^ k - m) <= 2 ^ k /\
  (2 * Z.abs (n * 2 ^ k - m) = 2 ^ k -> Z.even n = true).
Proof.
  intros Hk. unfold F64.rint_Z.
  assert (Hpos : 0 < 2 ^ k) by (apply Z.pow_pos_nonneg; lia).
  pose proof (Z.div_mod m (2 ^ k) ltac:(lia)) as Hdm.
  pose proof (Z.mod_pos_bound m (2 ^ k) Hpos) as Hb.
  set (q := m / 2 ^ k) in *. set (r := m mod 2 ^ k) in *.
  set (p := 2 ^ k) in *. clearbody p q r.
  destruct (Z.compare_spec (2 * r) p) as [He|Hl|Hg]; cbv zeta.
  - destruct (Z.even q) eqn:Eq.
    + split; [|intros _; assumption]. nia.
    + split; [nia|intros _].
      rewrite Z.even_add, Eq. reflexivity.
  - split; [nia|]. intros H. exfalso. nia.
  - split; [nia|]. intros H. exfalso. nia.
Qed.

(** ** Floats that are integers *)

Lemma digits2_pos_bounds (n : positive) :
  2 ^ (Zpos (digits2_pos n) - 1) <= Zpos n < 2 ^ Zpos (digits2_pos n).
Proof.
  induction n as [n IH|n IH|]; simpl digits2_pos.
  - rewrite Pos2Z.inj_succ. change (Zpos n~1) with (2 * Zpos n + 1).
    replace (Z.succ (Zpos (digits2_pos n)) - 1) with (Z.succ (Zpos (digits2_pos n) - 1)) by lia.
    rewrite !Z.pow_succ_r by lia.
    set (a := 2 ^ (Zpos (digits2_pos n) - 1)) in *.
    set (b := 2 ^ Zpos (digits2_pos n)) in *. clearbody a b. lia.
  - rewrite Pos2Z.inj_succ. change (Zpos n~0) with (2 * Zpos n).
    replace (Z.succ (Zpos (digits2_pos n)) - 1) with (Z.succ (Zpos (digits2_pos n) - 1)) by lia.
    rewrite !Z.pow_succ_r by lia.
    set (a := 2 ^ (Zpos (digits2_pos n) - 1)) in *.
    set (b := 2 ^ Zpos (digits2_pos n)) in *. clearbody a b. lia.
  - simpl. lia.
Qed.

Lemma digits2_pos_le (n : positive) (k : Z) :
  Zpos n < 2 ^ k -> 0 <= k -> Zpos (digits2_pos n) <= k.
Proof.
  intros Hn Hk. pose proof (digits2_pos_bounds n) as [Hlo _].
  destruct (Z_le_gt_dec (Zpos (digits2_pos n)) k) as [|Hgt]; [assumption|].
  exfalso. assert (2 ^ k <= 2 ^ (Zpos (digits2_pos n) - 1)) by (apply Z.pow_le_mono_r; lia).
  lia.
Qed.

Lemma iter_xO_digits (n p : positive) :
  digits2_pos (Pos.iter xO n p) = (digits2_pos n + p)%positive.
Proof.
  induction p as [|p IH] using Pos.peano_ind.
  - simpl. lia.
  - rewrite Pos.iter_succ. simpl. rewrite IH. lia.
Qed.

Lemma iter_xO_value (n p : positive) :
  Zpos (Pos.iter xO n p) = Zpos n * 2 ^ Zpos p.
Proof.
  induction p as [|p IH] using Pos.peano_ind.
  - simpl. lia.
  - rewrite Pos.iter_succ. change (Zpos (Pos.iter xO n p)~0) with (2 * Zpos (Pos.iter xO n p)).
    rewrite IH, Pos2Z.inj_succ, Z.pow_succ_r by lia. lia.
Qed.

Lemma fexp_53 (d : Z) : -1021 <= d -> fexp 53 1024 d = d - 53.
Proof. intros H. unfold fexp, emin. lia. Qed.

Lemma shr_fexp_canonical (m : positive) (e : Z) :
  Zpos (digits2_pos m) = 53 -> -1074 <= e ->
  shr_fexp 53 1024 (Zpos m) e loc_Exact
  = (Build_shr_record (Zpos m) false false, e).
Proof.
  intros Hd He. unfold shr_fexp. unfold Zdigits2. rewrite Hd.
  rewrite fexp_53 by lia.
  replace (53 + e - 53 - e) with 0 by lia. reflexivity.
Qed.

Lemma binary_round_aux_canonical (s : bool) (m : positive) (e : Z) :
  Zpos (digits2_pos m) = 53 -> -1074 <= e <= 971 ->
  binary_round_aux 53 1024 s (Zpos m) e loc_Exact = S754_finite s m e.
Proof.
  intros Hd He. unfold binary_round_aux.
  rewrite shr_fexp_canonical by lia.
  cbn [shr_m loc_of_shr_record round_nearest_even].
  rewrite shr_fexp_canonical by lia.
  cbn [shr_m]. destruct (Z.leb_spec e (1024 - 53)); [reflexivity | lia].
Qed.

Lemma binary_round_integer (s : bool) (n : positive) :
  Zpos n < 2 ^ 53 ->
  exists m e, binary_round 53 1024 s n 0 = S754_finite s m e /\
              -52 <= e <= 0 /\ Zpos m = Zpos n * 2 ^ (- e).
Proof.
  intros Hn. pose proof (digits2_pos_le n 53 Hn ltac:(lia)) as Hd.
  assert (Hd1 : 1 <= Zpos (digits2_pos n)) by lia.
  unfold binary_round, shl_align, fexp, emin.
  replace (Z.max (Zpos (digits2_pos n) + 0 - 53) (3 - 1024 - 53))
    with (Zpos (digits2_pos n) - 53) by lia.
  destruct (Zpos (digits2_pos n) - 53 - 0) as [|k|k] eqn:Ek; [|lia|].
  - exists n, 0. rewrite binary_round_aux_canonical by lia.
    split; [f_equal; lia|]. split; [lia|]. simpl. lia.
  - exists (Pos.iter xO n k), (Zpos (digits2_pos n) - 53).
    rewrite binary_round_aux_canonical.
    + split; [reflexivity|]. split; [lia|].
      rewrite iter_xO_value. f_equal. f_equal. lia.
    + rewrite iter_xO_digits, Pos2Z.inj_add. lia.
    + lia.
Qed.

Lemma rint_Z_bounds (m k : Z) :
  0 <= m -> 0 < k -> 0 <= F64.rint_Z m k <= m / 2 + 1.
Proof.
  intros Hm Hk. unfold F64.rint_Z.
  assert (Hpos : 2 <= 2 ^ k).
  { change 2 with (2 ^ 1) at 1. apply Z.pow_le_mono_r; lia. }
  assert (Hq0 : 0 <= m / 2 ^ k) by (apply Z.div_pos; lia).
  assert (Hq : m / 2 ^ k <= m / 2).
  { apply Z.div_le_compat_l; lia. }
  destruct (2 * (m mod 2 ^ k) ?= 2 ^ k); [destruct (Z.even _)| |]; lia.
Qed.

(** [rint] gives a float that is an integer: the integer nearest to its
    argument, with the sign of the argument. *)
Lemma rint_integer (s : bool) (m : positive) (e : Z) :
  e < 0 -> Zpos m < 2 ^ 53 ->
  F64.integer_value (F64.rint (S754_finite s m e))
  = Some (cond_Zopp s (F64.rint_Z (Zpos m) (- e))).
Proof.
  intros He Hm. unfold F64.rint.
  destruct (Z.leb_spec 0 e) as [|_]; [lia|].
  pose proof (rint_Z_bounds (Zpos m) (- e) ltac:(lia) ltac:(lia)) as Hn.
  assert (Hhalf : Zpos m / 2 + 1 < 2 ^ 53).
  { assert (Zpos m / 2 < 2 ^ 52) by (apply Z.div_lt_upper_bound; lia). lia. }
  destruct (F64.rint_Z (Zpos m) (- e)) as [|n|n] eqn:En; [| |lia].
  - destruct s; reflexivity.
  - destruct (binary_round_integer s n ltac:(lia)) as (m' & e' & Hr & He' & Hm').
    unfold F64.prec, F64.emax. rewrite Hr. unfold F64.integer_value.
    destruct (Z.leb_spec 0 e') as [H0|H0].
    + assert (e' = 0) by lia. subst e'. simpl in Hm'. f_equal. f_equal.
      change (2 ^ 0) with 1. lia.
    + rewrite Hm'. rewrite Z.mod_mul by (apply Z.pow_nonzero; lia).
      rewrite Z.eqb_refl, Z.div_mul by (apply Z.pow_nonzero; lia). reflexivity.
Qed.

(** ** Rows of a run *)


Lemma same_label {P : Type} (df : list (Row P)) (n : nat) (x y : Row P) :
  map row df = seq 0 n -> In x df -> In y df -> row x = row y -> x = y.
Proof.
  intros Hrows Hx Hy Hxy.
  pose proof (nth_error_label df n x Hrows Hx) as H1.
  pose proof (nth_error_label df n y Hrows Hy) as H2.
  rewrite Hxy in H1. congruence.
Qed.

Lemma written_In (records : list (list string)) (rep : Report) (o : Out.Row) :
  main records = OK rep -> In o (written rep) ->
  exists x, o = convert x /\
            In x (drop_duplicates (dropna (cleaned records))) /\
            In x (dropna (cleaned records)) /\
            In x (cleaned records) /\ has_null x = false.
Proof.
  intros Hmain Ho. apply main_OK in Hmain. destruct Hmain as (_ & _ & ->).
  simpl in Ho. apply in_map_iff in Ho. destruct Ho as (x & <- & Hx).
  exists x. split; [reflexivity|]. split; [assumption|].
  apply select_In in Hx. split; [assumption|].
  apply filter_In in Hx. destruct Hx as (Hx & Hn).
  split; [assumption|]. destruct (has_null x); [discriminate | reflexivity].
Qed.

Lemma json_written (records : list (list string)) (rep : Report) :
  main records = OK rep -> json rep = to_json (written rep).
Proof. intros H. apply main_OK in H. destruct H as (_ & _ & ->). reflexivity. Qed.


Lemma sorted_NoDup (l : list nat) : StronglySorted Nat.lt l -> NoDup l.
Proof.
  induction 1 as [|a l Hs IH Hall]; constructor; [|assumption].
  intros Hin. rewrite Forall_forall in Hall. specialize (Hall a Hin).
  unfold Nat.lt in Hall. lia.
Qed.

Lemma sorted_nth_error (l : list nat) (i j a b : nat) :
  StronglySorted Nat.lt l -> (i < j)%nat ->
  nth_error l i = Some a -> nth_error l j = Some b -> (a < b)%nat.
Proof.
  intros Hs. revert i j. induction Hs as [|x l Hs IH Hall]; intros i j Hij Hi Hj.
  - destruct i; discriminate.
  - destruct j as [|j]; [lia|]. simpl in Hj.
    destruct i as [|i]; simpl in Hi.
    + inversion Hi; subst. rewrite Forall_forall in Hall.
      apply Hall. eapply nth_error_In; eassumption.
    + apply (IH i j); [lia | assumption | assumption].
Qed.

Lemma kept_sorted (records : list (list string)) (rep : Report) :
  main records = OK rep ->
  StronglySorted Nat.lt (map row (dropna (cleaned records))).
Proof.
  intros H. unfold dropna. apply filter_sorted.
  rewrite (cleaned_rows records rep H). apply sorted_seq.
Qed.

Lemma written_rows (records : list (list string)) (rep : Report) :
  main records = OK rep ->
  map Out.row (written rep) = map row (drop_duplicates (dropna (cleaned records))).
Proof.
  intros H. apply main_OK in H. destruct H as (_ & _ & ->). simpl.
  rewrite map_map. reflexivity.
Qed.

Lemma written_sorted (records : list (list string)) (rep : Report) :
  main records = OK rep -> StronglySorted Nat.lt (map Out.row (written rep)).
Proof.
  intros H. rewrite (written_rows records rep H).
  unfold drop_duplicates. apply select_sorted. eapply kept_sorted; eassumption.
Qed.

(** A row that passes [dropna] has a string for product and a number
    for price. *)
Lemma kept_values (records : list (list string)) (rep : Report) (x : Row F64.float64) :
  main records = OK rep -> In x (dropna (cleaned records)) ->
  F64.isnan (price x) = false /\
  exists r s, In r (loaded records) /\ normalized r x /\
              product r = CStr s /\
              product x = CStr (Py.strip (Py.replace dquote EmptyString s)).
Proof.
  intros Hmain Hx. apply filter_In in Hx. destruct Hx as (Hx & Hnull).
  apply main_OK in Hmain. destruct Hmain as (_ & Hn & _).
  apply normalize_spec in Hn. destruct Hn as (Hall & _).
  destruct (Forall2_In_r _ _ _ _ Hall Hx) as (r & Hr & Hnorm).
  unfold has_null in Hnull. apply negb_true_iff in Hnull.
  apply orb_false_iff in Hnull. destruct Hnull as (Hnull & _).
  apply orb_false_iff in Hnull. destruct Hnull as (Hnull & Hprice).
  apply orb_false_iff in Hnull. destruct Hnull as (_ & Hprod).
  split; [assumption|].
  pose proof Hnorm as (_ & _ & _ & Hp & _).
  destruct (product r) as [| | |s|] eqn:Er; simpl in Hp; rewrite Hp in Hprod;
    try discriminate.
  exists r, s. auto.
Qed.

(** On rows that pass [dropna], having the same key is having the same
    product and prices that are equal as floats. *)
Lemma same_key_kept (records : list (list string)) (rep : Report)
      (x y : Row F64.float64) :
  main records = OK rep ->
  In x (dropna (cleaned records)) -> In y (dropna (cleaned records)) ->
  (same_key x y = true <->
   product x = product y /\ F64.eqb (price x) (price y) = true).
Proof.
  intros Hmain Hx Hy.
  destruct (kept_values records rep x Hmain Hx) as (Hnx & rx & sx & _ & _ & _ & Hpx).
  destruct (kept_values records rep y Hmain Hy) as (Hny & ry & sy & _ & _ & _ & Hpy).
  unfold same_key, same_float. rewrite Hnx. simpl. rewrite orb_false_r.
  rewrite andb_true_iff, same_value_spec. rewrite Hpx, Hpy.
  split; intros [H1 H2]; (split; [|assumption]).
  - destruct H1 as [H1|(? & ? & H1 & _)]; [assumption | discriminate].
  - left; assumption.
Qed.

(** ** Runs on small files *)

(** One record, the product in quotes and the price in dollars. *)
Example run_quoted_widget :
  option_map json
    (match main [["1"; String dquote ("Widget" ++ String dquote EmptyString);
                  "$10.00"; "US"]] with
     | OK rep => Some rep
     | Raise _ => None
     end)
  = Some [mkJson (JInteger 1) (CStr "Widget") (JDouble (F64.of_Z 10))
                 (JDouble (F64.of_Z 830)) (JString "US")].
Proof. reflexivity. Qed.

(** Two records with the same product and price: the first one stays. *)
Example run_duplicate :
  option_map json
    (match main [["1"; "Widget"; "$10.00"; "US"]; ["2"; "Widget"; "$10"; "IN"]] with
     | OK rep => Some rep
     | Raise _ => None
     end)
  = Some [mkJson (JInteger 1) (CStr "Widget") (JDouble (F64.of_Z 10))
                 (JDouble (F64.of_Z 830)) (JString "US")].
Proof. reflexivity. Qed.

(** A tie goes to the even neighbour: 0.125 gives 0.12, 0.375 gives 0.38. *)
Example round_ties_to_even :
  F64.round (F64.of_decimal false 125 (-3)) 2 = F64.of_decimal false 12 (-2) /\
  F64.round (F64.of_decimal false 375 (-3)) 2 = F64.of_decimal false 38 (-2).
Proof. split; reflexivity. Qed.

(** A price whose product with the rate is a float, and whose product
    with the rate and 100 is not: [price_inr] is an infinity. *)
Example price_inr_overflow :
  map (fun o => (F64.mul (Out.price_usd o) (F64.of_Z USD_TO_INR), Out.price_inr o))
      (match main [["1"; "Widget"; "$2e306"; "US"]] with
       | OK rep => written rep
       | Raise _ => []
       end)
  = [(S754_finite false 8317298694037237 971, S754_infinity false)].
Proof. reflexivity. Qed.

(** The loader reads [3e23] as 3 times the float of 1e23, which is not
    the float nearest to 3e23; a literal with a decimal exponent above
    308 is no float for it, whatever its digits. *)
Example loader_floats :
  (Csv.to_double "3e23" = Some (F64.mul (F64.of_Z 3) (F64.of_decimal false 1 23))) /\
  (Csv.to_double "3e23" <> Some (F64.of_decimal false 3 23)) /\
  (Csv.to_double "0e400" = None) /\
  (Py.float "0e400" = OK (S754_zero false)).
Proof.
  split; [vm_compute; reflexivity|].
  split; [vm_compute; discriminate|].
  split; vm_compute; reflexivity.
Qed.

(** Words that are numbers for the loader, and words that are not. *)
Example numeric_words :
  map numeric ["10"; "10.00"; " -3e2 "; "inf"; "$10"; "abc"; "1,5"; "99999999999999999999"]
  = [true; true; true; true; false; false; false; false].
Proof. reflexivity. Qed.

(** An integer that neither int64 nor uint64 holds stays text, and the
    normalizer reads it as a float. *)
Example integer_beyond_uint64 :
  option_map (map price) (match Csv.read_csv [["1"; "Widget"; "99999999999999999999"; "US"]] with
                          | OK df => Some df
                          | Raise _ => None
                          end)
  = Some [CStr "99999999999999999999"] /\
  map price (cleaned [["1"; "Widget"; "99999999999999999999"; "US"]])
  = [F64.of_decimal false 1 20].
Proof. split; reflexivity. Qed.

(** * The claims *)

(** ** C1 *)




(** ** C2 *)

(** C2, as the code has it, for a file that the tokenizer splits into
    records. The loader fails exactly when a record after the first has
    more fields than the first record and more than the four names, and
    then with a ParserError; it fails in no other way. Every other file
    is loaded with one row for each record: a record with fewer fields is
    not rejected, it is completed with empty fields (the empty field is
    one of the spellings of a missing value); of a first record with more
    than four fields, the fields in excess, the leftmost ones, are left
    out of the four named columns. *)
Theorem C2_parser_error :
  forall records : list (list string),
    (Csv.read_csv records = Raise ParserError <->
     exists first rest r,
       records = first :: rest /\ In r rest /\
       (Nat.max (List.length first) 4 < List.length r)%nat) /\
    (forall e, Csv.read_csv records = Raise e -> e = ParserError) /\
    Csv.is_na EmptyString = true /\
    (forall df, Csv.read_csv records = OK df ->
                List.length df = List.length records /\
                Csv.tokenize 4 records
                = OK (map (fun r => skipn (Nat.max (List.length (hd [] records)) 4 - 4)
                                          (r ++ repeat EmptyString
                                                       (Nat.max (List.length (hd [] records)) 4
                                                        - List.length r)))
                          records)).
Proof.
  intros records.
  assert (Htok : forall e, Csv.tokenize 4 records = Raise e ->
                 e = ParserError /\
                 exists first rest r,
                   records = first :: rest /\ In r rest /\
                   (Nat.max (List.length first) 4 < List.length r)%nat).
  { unfold Csv.tokenize. destruct records as [|first rest]; [discriminate|].
    destruct (Csv.too_many_fields _ rest) eqn:Em; [|discriminate].
    intros e H; inversion H; subst. split; [reflexivity|].
    unfold Csv.too_many_fields in Em. apply existsb_exists in Em.
    destruct Em as (r & Hr & Hlt). apply Nat.ltb_lt in Hlt.
    exists first, rest, r. auto. }
  split; [split|split; [|split; [reflexivity|]]].
  - unfold Csv.read_csv.
    destruct (Csv.tokenize 4 records) as [table|e] eqn:Et; simpl; [discriminate|].
    intros _. apply (Htok e eq_refl).
  - intros (first & rest & r & -> & Hr & Hlt).
    unfold Csv.read_csv, Csv.tokenize.
    replace (Csv.too_many_fields (Csv.expected_fields 4 first) rest) with true;
      [reflexivity|].
    symmetry. apply existsb_exists. exists r. split; [assumption|].
    apply Nat.ltb_lt. assumption.
  - unfold Csv.read_csv.
    destruct (Csv.tokenize 4 records) as [table|e'] eqn:Et; simpl; [discriminate|].
    intros e H; inversion H; subst. apply (Htok e eq_refl).
  - intros df Hdf. split; [apply read_csv_length; assumption|].
    unfold Csv.read_csv in Hdf.
    destruct (Csv.tokenize 4 records) as [table|e'] eqn:Et; simpl in Hdf; [|discriminate].
    clear Hdf. revert Et. unfold Csv.tokenize.
    destruct records as [|first rest]; [intros H; inversion H; reflexivity|].
    destruct (Csv.too_many_fields _ rest); [discriminate|].
    intros H; inversion H. reflexivity.
Qed.

(** A file of one record with three fields is loaded: the missing
    country is NaN. *)
Lemma C2_counterexample :
  List.length ["1"; "Widget"; "$10.00"] = 3%nat /\
  Csv.read_csv [["1"; "Widget"; "$10.00"]]
  = OK [mkRow 0%nat (CInt 1) (CStr "Widget") (CStr "$10.00") (CFloat F64.nan)].
Proof. split; reflexivity. Qed.

(** ** C3 *)

(** C3. On a file with no record the run ends well: it reports no row
    and writes the empty JSON array. *)
Theorem C3_empty_input :
  main [] = OK (mkReport 0 (mkNullCounts 0 0 0 0) 0 0 0 [] []).
Proof. reflexivity. Qed.

(** ** C4 *)

(** C4, as the code has it. In every row that is written, [price_inr] is
    numpy's [round(price_usd * 83, 2)], computed in float64: the product
    of the price and the rate is multiplied by 100, [rint] takes the
    nearest integer (the even one on a tie, the sign kept) and the result
    is divided by 100; each of the three operations rounds to float64, so
    that the rounding is that of the scaled product. The price is a
    number, and the conversion is a total function of it. *)
Theorem C4_price_inr :
  forall (records : list (list string)) (rep : Report) (o : Out.Row),
    main records = OK rep -> In o (written rep) ->
    USD_TO_INR = 83 /\
    F64.isnan (Out.price_usd o) = false /\
    Out.price_inr o
    = F64.div (F64.rint (F64.mul (F64.mul (Out.price_usd o) (F64.of_Z USD_TO_INR))
                                 (F64.of_Z 100)))
              (F64.of_Z 100) /\
    F64.integer_value (F64.of_Z USD_TO_INR) = Some 83 /\
    F64.integer_value (F64.of_Z 100) = Some 100 /\
    (forall x, (forall s m e, x = S754_finite s m e -> 0 <= e) -> F64.rint x = x) /\
    (forall s m e,
        e < 0 -> Zpos m < 2 ^ 53 ->
        F64.integer_value (F64.rint (S754_finite s m e))
        = Some (cond_Zopp s (F64.rint_Z (Zpos m) (- e)))) /\
    (forall m k, 0 <= k ->
                 2 * Z.abs (F64.rint_Z m k * 2 ^ k - m) <= 2 ^ k /\
                 (2 * Z.abs (F64.rint_Z m k * 2 ^ k - m) = 2 ^ k ->
                  Z.even (F64.rint_Z m k) = true)).
Proof.
  intros records rep o Hmain Ho.
  destruct (written_In records rep o Hmain Ho) as (x & -> & _ & _ & _ & Hnull).
  simpl. split; [reflexivity|]. split.
  { unfold has_null in Hnull. destruct (F64.isnan (price x)); [|reflexivity].
    rewrite !orb_true_r in Hnull. simpl in Hnull.
    destruct (isnull (id x) || isnull (product x)); discriminate. }
  split; [reflexivity|]. split; [reflexivity|]. split; [reflexivity|].
  split; [|split].
  - intros y Hy. destruct y as [s|s| |s m e]; try reflexivity.
    unfold F64.rint. specialize (Hy s m e eq_refl).
    destruct (Z.leb_spec 0 e); [reflexivity | lia].
  - intros s m e He Hm. apply rint_integer; assumption.
  - intros m k Hk. apply (rint_Z_nearest_even m k Hk).
Qed.
(** The run on one record with the price [$1.005]: the product of the
    price and the rate is below 83.415, the multiple of 0.01 nearest to
    it is 83.41, and [price_inr] is 83.42. *)
Lemma C4_counterexample :
  map (fun o => (Out.price_usd o, Out.price_inr o))
      (match main [["1"; "Widget"; "$1.005"; "US"]] with
       | OK rep => written rep
       | Raise _ => []
       end)
  = [(F64.of_decimal false 1005 (-3), F64.of_decimal false 8342 (-2))] /\
  F64.mul (F64.of_decimal false 1005 (-3)) (F64.of_Z USD_TO_INR)
  = S754_finite false 5869808795579842 (-46) /\
  5869808795579842 * 1000 < 83415 * 2 ^ 46 /\
  nearest_cent (S754_finite false 5869808795579842 (-46))
  = F64.of_decimal false 8341 (-2) /\
  F64.eqb (F64.of_decimal false 8342 (-2)) (F64.of_decimal false 8341 (-2)) = false.
Proof. repeat split; reflexivity. Qed.

Lemma C4_witness :
  main sample_records = OK sample_report /\
  (forall o, In o (written sample_report) ->
             Out.price_inr o
             = F64.div (F64.rint (F64.mul (F64.mul (Out.price_usd o) (F64.of_Z 83))
                                          (F64.of_Z 100)))
                       (F64.of_Z 100)).
Proof.
  assert (Hmain : main sample_records = OK sample_report) by reflexivity.
  split; [assumption|]. intros o Ho.
  apply (C4_price_inr sample_records sample_report o Hmain Ho).
Defined.

(** ** C5 *)

(** C5. The rows that are written are rows that passed [dropna]; no two
    of them have the same product and prices equal as floats (the
    equality of IEEE 754, with no tolerance). Every row that passed
    [dropna] has a written row of its key, at or before it: the written
    row is the first of its key in the order of the file, and no row of
    that key after it is written. *)
Theorem C5_first_of_each_key :
  forall (records : list (list string)) (rep : Report),
    main records = OK rep ->
    let kept := dropna (cleaned records) in
    (forall o, In o (written rep) -> exists x, In x kept /\ o = convert x) /\
    (forall a b, In a (written rep) -> In b (written rep) ->
                 Out.product a = Out.product b ->
                 F64.eqb (Out.price_usd a) (Out.price_usd b) = true ->
                 a = b) /\
    (forall x, In x kept ->
               exists o, In o (written rep) /\
                         Out.product o = product x /\
                         F64.eqb (Out.price_usd o) (price x) = true /\
                         (Out.row o <= row x)%nat) /\
    (forall o x, In o (written rep) -> In x kept ->
                 Out.product o = product x ->
                 F64.eqb (Out.price_usd o) (price x) = true ->
                 (Out.row o <= row x)%nat /\
                 ((Out.row o < row x)%nat ->
                  forall o', In o' (written rep) -> Out.row o' <> row x)).
Proof.
  intros records rep Hmain kept.
  pose proof (kept_sorted records rep Hmain) as Hsorted. fold kept in Hsorted.
  assert (Hw : forall o, In o (written rep) ->
               exists x, In x (dedup_from [] kept) /\ In x kept /\ o = convert x).
  { intros o Ho. destruct (written_In records rep o Hmain Ho) as (x & -> & Hd & Hk & _).
    exists x. auto. }
  assert (Hwritten : forall x, In x (dedup_from [] kept) -> In (convert x) (written rep)).
  { intros x Hx. pose proof Hmain as Hm. apply main_OK in Hm.
    destruct Hm as (_ & _ & ->). simpl. apply in_map. assumption. }
  assert (Hdistinct : forall x y, In x (dedup_from [] kept) -> In y (dedup_from [] kept) ->
                                  same_key x y = true -> x = y).
  { intros x y Hx Hy Hk.
    destruct (ForallOrdPairs_In (dedup_from_distinct [] kept) x y Hx Hy) as [H|[H|H]];
      [assumption | congruence | apply same_key_sym in Hk; congruence]. }
  assert (Hlabel : forall x y, In x kept -> In y kept -> row x = row y -> x = y).
  { intros x y Hx Hy. unfold kept, dropna in Hx, Hy.
    apply filter_In in Hx. apply filter_In in Hy.
    apply (same_label _ _ x y (cleaned_rows records rep Hmain)); tauto. }
  split; [|split; [|split]].
  - intros o Ho. destruct (Hw o Ho) as (x & _ & Hx & ->). eauto.
  - intros a b Ha Hb Hp He.
    destruct (Hw a Ha) as (x & Hdx & Hx & ->). destruct (Hw b Hb) as (y & Hdy & Hy & ->).
    simpl in Hp, He. f_equal. apply Hdistinct; try assumption.
    apply (same_key_kept records rep x y Hmain Hx Hy). auto.
  - intros x Hx.
    destruct (dedup_from_covers [] kept x Hsorted Hx) as [H|(y & Hy & Hk & Hle)];
      [discriminate|].
    exists (convert y). split; [apply Hwritten; assumption|]. simpl.
    apply same_key_sym in Hk.
    apply (same_key_kept records rep y x Hmain) in Hk;
      [|apply dedup_from_In in Hy; tauto | assumption].
    destruct Hk. auto.
  - intros o x Ho Hx Hp He.
    destruct (Hw o Ho) as (y & Hdy & Hy & ->). simpl in *.
    assert (Hk : same_key x y = true).
    { apply same_key_sym. apply (same_key_kept records rep y x Hmain Hy Hx). auto. }
    split; [eapply dedup_from_first; eassumption|].
    intros Hlt o' Ho' Hrow.
    destruct (Hw o' Ho') as (z & Hdz & Hz & ->). simpl in Hrow.
    rewrite (Hlabel z x Hz Hx Hrow) in Hdz.
    rewrite (Hdistinct x y Hdz Hdy Hk) in Hlt. lia.
Qed.

Lemma C5_witness :
  main sample_records = OK sample_report /\
  (forall a b, In a (written sample_report) -> In b (written sample_report) ->
               Out.product a = Out.product b ->
               F64.eqb (Out.price_usd a) (Out.price_usd b) = true ->
               a = b).
Proof.
  assert (Hmain : main sample_records = OK sample_report) by reflexivity.
  split; [assumption|].
  apply (C5_first_of_each_key sample_records sample_report Hmain).
Defined.

(** ** C6 *)

(** C6. In every object that is written the product is a string with no
    double quote in it, that neither starts nor ends with a whitespace
    character. *)
Theorem C6_product_clean :
  forall (records : list (list string)) (rep : Report) (o : JsonObject),
    main records = OK rep -> In o (json rep) ->
    exists s, json_product o = CStr s /\
              ~ In dquote (chars s) /\
              (forall c t, s = String c t -> Py.isspace c = false) /\
              (forall t c, s = (t ++ String c EmptyString)%string ->
                           Py.isspace c = false).
Proof.
  intros records rep o Hmain Ho.
  rewrite (json_written records rep Hmain) in Ho.
  unfold to_json in Ho. apply in_map_iff in Ho. destruct Ho as (w & <- & Hw).
  destruct (written_In records rep w Hmain Hw) as (x & -> & _ & Hx & _).
  destruct (kept_values records rep x Hmain Hx) as (_ & r & s & _ & _ & _ & Hp).
  simpl. rewrite Hp. eexists. split; [reflexivity|]. split; [|split].
  - intros Hin. apply strip_chars, replace_chars in Hin. destruct Hin as (Hne & _).
    apply Hne. reflexivity.
  - intros c t Hs. eapply strip_head. exact Hs.
  - intros t c Hs. eapply strip_last. exact Hs.
Qed.

Lemma C6_witness :
  main sample_records = OK sample_report /\
  In sample_object (json sample_report) /\
  exists s, json_product sample_object = CStr s /\ ~ In dquote (chars s).
Proof.
  assert (Hmain : main sample_records = OK sample_report) by reflexivity.
  assert (Hin : In sample_object (json sample_report)) by (left; reflexivity).
  split; [assumption|]. split; [assumption|].
  destruct (C6_product_clean sample_records sample_report sample_object Hmain Hin)
    as (s & Hs & Hq & _).
  exists s. split; assumption.
Defined.

(** ** C7 *)

(** C7. The rows keep the order of the file at every stage. The labels
    of the loaded frame and of the normalized frame count the records
    from 0; [dropna] and [drop_duplicates] return some of the rows they
    are given, with labels still increasing; the JSON array lists the
    written rows in that order. So of two objects in the output, the one
    that comes first comes from the earlier record. *)
Theorem C7_order_preserved :
  forall (records : list (list string)) (rep : Report),
    main records = OK rep ->
    let clean := cleaned records in
    map row (loaded records) = seq 0 (List.length records) /\
    map row clean = seq 0 (List.length records) /\
    (forall x, In x (dropna clean) -> In x clean) /\
    StronglySorted Nat.lt (map row (dropna clean)) /\
    (forall x, In x (drop_duplicates (dropna clean)) -> In x (dropna clean)) /\
    StronglySorted Nat.lt (map row (drop_duplicates (dropna clean))) /\
    written rep = map convert (drop_duplicates (dropna clean)) /\
    json rep = to_json (written rep) /\
    (forall i j a b, (i < j)%nat ->
                     nth_error (written rep) i = Some a ->
                     nth_error (written rep) j = Some b ->
                     (Out.row a < Out.row b)%nat).
Proof.
  intros records rep Hmain clean.
  pose proof (kept_sorted records rep Hmain) as Hkept.
  pose proof (written_sorted records rep Hmain) as Hwritten.
  pose proof Hmain as Hm. apply main_OK in Hm. destruct Hm as (Hread & _ & Hrep).
  repeat split.
  - apply read_csv_rows; assumption.
  - apply (cleaned_rows records rep Hmain).
  - intros x Hx. apply filter_In in Hx. tauto.
  - assumption.
  - intros x Hx. eapply select_In; eassumption.
  - unfold drop_duplicates. apply select_sorted. assumption.
  - rewrite Hrep. reflexivity.
  - rewrite Hrep. reflexivity.
  - intros i j a b Hij Ha Hb.
    apply (sorted_nth_error (map Out.row (written rep)) i j); try assumption;
      rewrite nth_error_map; [rewrite Ha | rewrite Hb]; reflexivity.
Qed.

Lemma C7_witness :
  main sample_records = OK sample_report /\
  StronglySorted Nat.lt (map row (drop_duplicates (dropna (cleaned sample_records)))).
Proof.
  assert (Hmain : main sample_records = OK sample_report) by reflexivity.
  split; [assumption|].
  apply (C7_order_preserved sample_records sample_report Hmain).
Defined.

(** ** C8 *)

(** C8. The number of objects written is the number of rows loaded, less
    the rows with a missing value, less the duplicates. The count of
    duplicates that is printed, taken before they are removed, is the
    number of rows that [drop_duplicates] removes. *)
Theorem C8_row_count :
  forall (records : list (list string)) (rep : Report),
    main records = OK rep ->
    let clean := cleaned records in
    let missing := count has_null clean in
    total_rows rep = List.length records /\
    List.length clean = total_rows rep /\
    (rows_after_dropna rep + missing = total_rows rep)%nat /\
    duplicate_rows rep = count (fun b => b) (duplicated (dropna clean)) /\
    (rows_after_dedup rep + duplicate_rows rep = rows_after_dropna rep)%nat /\
    List.length (dropna clean) = rows_after_dropna rep /\
    List.length (drop_duplicates (dropna clean)) = rows_after_dedup rep /\
    List.length (json rep) = rows_after_dedup rep /\
    List.length (json rep) = (total_rows rep - missing - duplicate_rows rep)%nat /\
    (List.length (json rep) + missing + duplicate_rows rep = total_rows rep)%nat.
Proof.
  intros records rep Hmain clean missing.
  pose proof (cleaned_rows records rep Hmain) as Hrows. fold clean in Hrows.
  pose proof Hmain as Hm. apply main_OK in Hm. destruct Hm as (Hread & _ & Hrep).
  fold clean in Hrep.
  assert (Hlen : List.length clean = List.length records).
  { rewrite <- (length_map row clean), Hrows. apply length_seq. }
  pose proof (count_filter_length has_null clean) as Hna.
  fold (dropna clean) in Hna. fold missing in Hna.
  pose proof (select_negb_length (dropna clean) (duplicated (dropna clean))
                (duplicated_from_length [] (dropna clean))) as Hdup.
  fold (drop_duplicates (dropna clean)) in Hdup.
  rewrite Hrep. unfold to_json. simpl. rewrite !length_map.
  rewrite (read_csv_length records _ Hread).
  repeat split; lia.
Qed.

Lemma C8_witness :
  main sample_records = OK sample_report /\
  List.length (json sample_report) = 2%nat /\
  total_rows sample_report = 6%nat /\
  count has_null (cleaned sample_records) = 3%nat /\
  duplicate_rows sample_report = 1%nat.
Proof.
  assert (Hmain : main sample_records = OK sample_report) by reflexivity.
  split; [assumption|].
  destruct (C8_row_count sample_records sample_report Hmain)
    as (_ & _ & _ & _ & _ & _ & _ & _ & Hjson & _).
  split; [rewrite Hjson; reflexivity|].
  split; [reflexivity|]. split; reflexivity.
Defined.

(** ** C9 *)

(** C9, as the code has it. Every row that is written has the id and the
    country of the row of the loaded frame it comes from, and so has that
    row at every stage in between: between the load and the writer no
    stage changes either column. The writer prints the two values: a
    string, an integer or a boolean as it is, a float as the number that
    its format gives (ten decimal places), and an infinite float as
    [null]. *)
Theorem C9_id_country :
  forall (records : list (list string)) (rep : Report) (i : nat) (o : JsonObject),
    main records = OK rep -> nth_error (json rep) i = Some o ->
    exists (w : Out.Row) (x : Row F64.float64) (r : Row cell),
      nth_error (written rep) i = Some w /\
      nth_error (cleaned records) (Out.row w) = Some x /\
      nth_error (loaded records) (Out.row w) = Some r /\
      In x (drop_duplicates (dropna (cleaned records))) /\
      id x = id r /\ country x = country r /\
      Out.id w = id r /\ Out.country w = country r /\
      json_id o = json_of_cell (id r) /\ json_country o = json_of_cell (country r) /\
      (forall s, id r = CStr s -> json_id o = JString s) /\
      (forall z, id r = CInt z -> json_id o = JInteger z) /\
      (forall s, country r = CStr s -> json_country o = JString s) /\
      (forall z, country r = CInt z -> json_country o = JInteger z) /\
      (forall x, id r = CFloat x -> json_id o = json_of_float x) /\
      (forall x, country r = CFloat x -> json_country o = json_of_float x) /\
      (forall s, json_of_float (S754_infinity s) = JNull) /\
      (forall s m e, json_of_float (S754_finite s m e) = JDouble (S754_finite s m e)).
Proof.
  intros records rep i o Hmain Ho.
  rewrite (json_written records rep Hmain) in Ho.
  unfold to_json in Ho. rewrite nth_error_map in Ho.
  destruct (nth_error (written rep) i) as [w|] eqn:Ew; [|discriminate].
  simpl in Ho. inversion Ho; subst o. clear Ho.
  destruct (written_In records rep w Hmain (nth_error_In _ _ Ew))
    as (x & -> & Hd & _ & Hx & _).
  pose proof (cleaned_rows records rep Hmain) as Hrows.
  pose proof Hmain as Hm. apply main_OK in Hm. destruct Hm as (Hread & Hn & _).
  apply normalize_spec in Hn. destruct Hn as (Hall & _).
  destruct (Forall2_In_r _ _ _ _ Hall Hx) as (r & Hr & Hnorm).
  destruct Hnorm as (Hrow & Hid & Hcountry & _).
  exists (convert x), x, r. simpl.
  split; [reflexivity|].
  split; [apply (nth_error_label _ _ x Hrows Hx)|].
  split; [rewrite Hrow; apply (nth_error_label _ _ r (read_csv_rows _ _ Hread) Hr)|].
  rewrite Hid, Hcountry.
  repeat split; auto; try (intros v Hv; rewrite Hv; reflexivity).
Qed.

(** The run on one record whose id is [inf]: the id is loaded as the
    float infinity and reaches the writer as it is, and the JSON object
    has [null] for it. *)
Lemma C9_counterexample :
  map id (loaded [["inf"; "Widget"; "$10"; "US"]]) = [CFloat (S754_infinity false)] /\
  match main [["inf"; "Widget"; "$10"; "US"]] with
  | OK rep =>
      map Out.id (written rep) = [CFloat (S754_infinity false)] /\
      map json_id (json rep) = [JNull]
  | Raise _ => False
  end.
Proof. split; [reflexivity|]. split; reflexivity. Qed.

Lemma C9_witness :
  main sample_records = OK sample_report /\
  nth_error (json sample_report) 1
  = Some (mkJson (JInteger 2) (CStr "Gadget")
                 (JDouble (F64.of_decimal false 55 (-1)))
                 (JDouble (F64.of_decimal false 4565 (-1)))
                 (JString "IN")) /\
  exists r, nth_error (loaded sample_records) 1 = Some r /\
            id r = CInt 2 /\ country r = CStr "IN".
Proof.
  assert (Hmain : main sample_records = OK sample_report) by reflexivity.
  assert (Hnth : nth_error (json sample_report) 1
                 = Some (mkJson (JInteger 2) (CStr "Gadget")
                                (JDouble (F64.of_decimal false 55 (-1)))
                                (JDouble (F64.of_decimal false 4565 (-1)))
                                (JString "IN")))
    by reflexivity.
  split; [assumption|]. split; [assumption|].
  destruct (C9_id_country sample_records sample_report 1%nat _ Hmain Hnth)
    as (w & x & r & Hw & _ & Hr & _ & _ & _ & Hid & Hc & _).
  assert (Hrow : Out.row w = 1%nat) by (inversion Hw; reflexivity).
  rewrite Hrow in Hr.
  exists r. split; [assumption|].
  assert (Hw' : w = Out.mk 1 (CInt 2) (CStr "Gadget") (F64.of_decimal false 55 (-1))
                           (F64.of_decimal false 4565 (-1)) (CStr "IN"))
    by (inversion Hw; reflexivity).
  subst w. simpl in Hid, Hc. split; congruence.
Defined.

(** ** C10 *)



Lemma upcast_int64_numbers (l : list (option Z)) :
  forallb is_number (Csv.upcast_int64 l) = true.
Proof.
  unfold Csv.upcast_int64.
  destruct (forallb _ l) eqn:Eall; apply forallb_forall; intros c Hc;
    apply in_map_iff in Hc; destruct Hc as (o & <- & Ho).
  - rewrite forallb_forall in Eall. specialize (Eall o Ho).
    destruct o; [reflexivity | discriminate].
  - destruct o; reflexivity.
Qed.



Lemma normalize_not_text (df : list (Row cell)) :
  forallb is_text (map product df) = false \/ forallb is_text (map price df) = false ->
  normalize df = Raise AttributeError.
Proof.
  intros H. destruct (normalize df) as [clean|e] eqn:En.
  - apply normalize_spec in En. destruct En as (_ & Hp & Hq).
    destruct H; congruence.
  - f_equal. revert En. unfold normalize. rewrite (str_spec (map product df)).
    destruct (forallb is_text (map product df)) eqn:Hp; simpl;
      [|intros E; inversion E; reflexivity].
    unfold str_replace at 1. rewrite str_str_map. simpl.
    fold (str_replace dquote EmptyString (map product df)).
    rewrite set_product_clean.
    set (df1 := map _ df).
    assert (Hprice : map price df1 = map price df)
      by (unfold df1; rewrite map_map; reflexivity).
    rewrite Hprice, (str_spec (map price df)).
    destruct H as [H|H]; [discriminate|]. rewrite H. simpl.
    intros E; inversion E; reflexivity.
Qed.



(** * Further properties of the calls *)

(** ** The outcome of a run *)

Lemma read_csv_raise (records : list (list string)) (e : error) :
  Csv.read_csv records = Raise e -> e = ParserError.
Proof.
  unfold Csv.read_csv, Csv.tokenize. destruct records as [|first rest]; [discriminate|].
  destruct (Csv.too_many_fields _ rest); simpl; [|discriminate].
  intros H; inversion H; reflexivity.
Qed.

Lemma mapM_OK_iff {A B : Type} (f : A -> result B) (l : list A) :
  (exists l', mapM f l = OK l') <->
  forallb (fun a => match f a with OK _ => true | Raise _ => false end) l = true.
Proof.
  induction l as [|a l IH]; simpl.
  - split; eauto.
  - destruct (f a) as [b|e]; simpl.
    + rewrite <- IH. destruct (mapM f l) as [bs|e]; simpl; split; eauto;
        intros (l' & H); discriminate.
    + split; [intros (l' & H)|intros H]; discriminate.
Qed.

(** On a frame with text in both columns the normalizer is the float
    conversion of the cleaned prices. *)
Lemma normalize_text (df : list (Row cell)) :
  forallb is_text (map product df) = true ->
  forallb is_text (map price df) = true ->
  normalize df =
  (prices <- astype_float (map clean_price (map price df)) ;;
   OK (set_price (map (fun r => mkRow (row r) (id r) (clean_product (product r))
                                      (price r) (country r)) df) prices)).
Proof.
  intros Hp Hq. unfold normalize. rewrite (str_spec (map product df)), Hp. simpl.
  unfold str_replace at 1. rewrite str_str_map. simpl.
  fold (str_replace dquote EmptyString (map product df)).
  rewrite set_product_clean.
  set (df1 := map _ df).
  assert (Hprice : map price df1 = map price df)
    by (unfold df1; rewrite map_map; reflexivity).
  rewrite Hprice, (str_spec (map price df)), Hq. simpl.
  unfold str_replace at 1. rewrite str_str_map. simpl.
  fold (str_replace "$" EmptyString (map price df)).
  rewrite str_clean_price. reflexivity.
Qed.

Lemma forallb_price_parses (col : list cell) :
  forallb (fun a => match float_of_cell a with
                    | OK _ => true
                    | Raise _ => false
                    end) (map clean_price col)
  = forallb price_parses col.
Proof.
  unfold price_parses. induction col as [|c l IH]; simpl;
    [reflexivity | rewrite IH; reflexivity].
Qed.

Lemma normalize_outcome (df : list (Row cell)) :
  match normalize df with
  | OK _ =>
      forallb is_text (map product df) = true /\
      forallb is_text (map price df) = true /\
      forallb price_parses (map price df) = true
  | Raise AttributeError =>
      forallb is_text (map product df) = false \/
      forallb is_text (map price df) = false
  | Raise ValueError =>
      forallb is_text (map product df) = true /\
      forallb is_text (map price df) = true /\
      forallb price_parses (map price df) = false
  | Raise ParserError => False
  end.
Proof.
  destruct (forallb is_text (map product df)) eqn:Hp;
    [|rewrite normalize_not_text; auto].
  destruct (forallb is_text (map price df)) eqn:Hq;
    [|rewrite normalize_not_text; auto].
  rewrite (normalize_text df Hp Hq).
  pose proof (mapM_OK_iff float_of_cell (map clean_price (map price df))) as Hiff.
  rewrite forallb_price_parses in Hiff.
  unfold astype_float.
  destruct (mapM float_of_cell (map clean_price (map price df))) as [prices|e] eqn:Em;
    simpl.
  - repeat split. apply Hiff. eauto.
  - rewrite (astype_float_raise _ _ Em). repeat split.
    destruct (forallb price_parses (map price df)); [|reflexivity].
    destruct (proj2 Hiff eq_refl) as (l' & Hl'). discriminate.
Qed.

(** How a run ends on a file that the reader takes at once, told from
    the loaded frame: with ParserError when the load fails; with
    AttributeError when the product or the price column is not text; with
    ValueError when both are text and some price is not a float; well in
    the one case left. *)
Theorem main_outcome :
  forall records : list (list string),
    Csv.one_chunk records ->
    (main records = Raise ParserError <-> Csv.read_csv records = Raise ParserError) /\
    (main records = Raise AttributeError <->
     exists df, Csv.read_csv records = OK df /\
                (forallb is_text (map product df) = false \/
                 forallb is_text (map price df) = false)) /\
    (main records = Raise ValueError <->
     exists df, Csv.read_csv records = OK df /\
                forallb is_text (map product df) = true /\
                forallb is_text (map price df) = true /\
                forallb price_parses (map price df) = false) /\
    ((exists rep, main records = OK rep) <->
     exists df, Csv.read_csv records = OK df /\
                forallb is_text (map product df) = true /\
                forallb is_text (map price df) = true /\
                forallb price_parses (map price df) = true).
Proof.
  intros records _. unfold main.
  destruct (Csv.read_csv records) as [df|e] eqn:Hread; simpl.
  - pose proof (normalize_outcome df) as Hout.
    destruct (normalize df) as [clean|[| |]] eqn:Hn; simpl;
      repeat split; try discriminate; try contradiction;
      try (intros (df' & Hdf' & H); inversion Hdf'; subst df';
           destruct Hout as (Hp & Hq & Hf) || destruct Hout as [Hp|Hq];
           destruct H as (Hp' & Hq' & Hf') || destruct H as [Hp'|Hq'];
           congruence);
      try (intros _; exists df; auto; fail);
      try (intros (rep & H); discriminate);
      try (intros _; eauto; fail).
  - rewrite (read_csv_raise records e Hread).
    repeat split; try discriminate; try reflexivity;
      try (intros (df' & Hdf' & _); discriminate);
      try (intros (rep & H); discriminate).
Qed.

Lemma main_outcome_witness :
  Csv.one_chunk [["1"; "True"; "$abc"; "US"]] /\
  main [["1"; "True"; "$abc"; "US"]] = Raise AttributeError.
Proof.
  assert (H : Csv.one_chunk [["1"; "True"; "$abc"; "US"]])
    by (unfold Csv.one_chunk; vm_compute; discriminate).
  split; [assumption|].
  apply (main_outcome [["1"; "True"; "$abc"; "US"]] H).
  eexists. split; [reflexivity|]. left. reflexivity.
Defined.

(** ** What is written *)

(** No row that is written has a missing value, in any of the four
    columns that were loaded. *)
Theorem written_complete :
  forall (records : list (list string)) (rep : Report) (o : Out.Row),
    main records = OK rep -> In o (written rep) ->
    isnull (Out.id o) = false /\ isnull (Out.product o) = false /\
    F64.isnan (Out.price_usd o) = false /\ isnull (Out.country o) = false.
Proof.
  intros records rep o Hmain Ho.
  destruct (written_In records rep o Hmain Ho) as (x & -> & _ & _ & _ & Hnull).
  simpl. unfold has_null in Hnull.
  apply orb_false_iff in Hnull. destruct Hnull as (Hnull & Hcountry).
  apply orb_false_iff in Hnull. destruct Hnull as (Hnull & Hprice).
  apply orb_false_iff in Hnull. tauto.
Qed.

Lemma written_complete_witness :
  main sample_records = OK sample_report /\
  forall o, In o (written sample_report) -> isnull (Out.country o) = false.
Proof.
  assert (Hmain : main sample_records = OK sample_report) by reflexivity.
  split; [assumption|]. intros o Ho.
  apply (written_complete sample_records sample_report o Hmain Ho).
Defined.

(** A row that is written comes from a loaded row with a string in the
    product and in the price column: its product is that string without
    its double quotes, stripped, and its price is what [float] reads in
    the price string without its dollar signs, stripped. *)
Theorem written_from_text :
  forall (records : list (list string)) (rep : Report) (o : Out.Row),
    main records = OK rep -> In o (written rep) ->
    exists (r : Row cell) (s t : string),
      nth_error (loaded records) (Out.row o) = Some r /\
      product r = CStr s /\ price r = CStr t /\
      Out.product o = CStr (Py.strip (Py.replace dquote EmptyString s)) /\
      Py.float (Py.strip (Py.replace "$" EmptyString t)) = OK (Out.price_usd o).
Proof.
  intros records rep o Hmain Ho.
  destruct (written_In records rep o Hmain Ho) as (x & -> & _ & Hk & _ & _).
  destruct (kept_values records rep x Hmain Hk)
    as (Hnan & r & s & Hr & Hnorm & Hs & Hp).
  pose proof Hmain as Hm. apply main_OK in Hm. destruct Hm as (Hread & _ & _).
  destruct Hnorm as (Hrow & _ & _ & _ & Hf).
  destruct (price r) as [| | |t|] eqn:Et; simpl in Hf;
    try (inversion Hf as [Hx]; rewrite <- Hx in Hnan; discriminate).
  exists r, s, t. simpl. rewrite Hrow.
  split; [apply (nth_error_label _ _ r (read_csv_rows _ _ Hread) Hr)|]. auto.
Qed.

Lemma written_from_text_witness :
  main sample_records = OK sample_report /\
  forall o, In o (written sample_report) ->
            exists r, nth_error (loaded sample_records) (Out.row o) = Some r.
Proof.
  assert (Hmain : main sample_records = OK sample_report) by reflexivity.
  split; [assumption|]. intros o Ho.
  destruct (written_from_text sample_records sample_report o Hmain Ho)
    as (r & _ & _ & Hr & _).
  exists r. assumption.
Defined.

(** ** [replace] and [strip] *)

(** Replacing a character by nothing keeps the other characters, in
    order, and those only. *)
Theorem replace_filter :
  forall (old : ascii) (s : string),
    chars (Py.replace old EmptyString s)
    = filter (fun c => negb (Ascii.eqb c old)) (chars s).
Proof.
  intros old s. induction s as [|c s IH]; simpl; [reflexivity|].
  destruct (Ascii.eqb c old); simpl; [assumption | f_equal; assumption].
Qed.

Lemma replace_absent (old : ascii) (s : string) :
  ~ In old (chars s) -> Py.replace old EmptyString s = s.
Proof.
  induction s as [|c s IH]; simpl; [reflexivity|]. intros Hn.
  destruct (Ascii.eqb_spec c old) as [->|Hne]; [exfalso; auto|].
  f_equal. apply IH. tauto.
Qed.

Section StripShape.
Variable space : ascii -> bool.

Lemma lstrip_split (s : string) :
  exists l, s = (l ++ Py.lstrip_with space s)%string /\ forallb space (chars l) = true.
Proof.
  induction s as [|c s (l & Hl & Hs)]; simpl.
  - exists EmptyString. split; reflexivity.
  - destruct (space c) eqn:Ec.
    + exists (String c l). simpl. rewrite Ec, Hs. split; [f_equal; assumption | reflexivity].
    + exists EmptyString. split; reflexivity.
Qed.

Lemma rstrip_split (s : string) :
  exists r, s = (Py.rstrip_with space s ++ r)%string /\ forallb space (chars r) = true.
Proof.
  induction s as [|c s (r & Hr & Hs)]; simpl.
  - exists EmptyString. split; reflexivity.
  - destruct (Py.rstrip_with space s) as [|b t] eqn:Et.
    + destruct (space c) eqn:Ec.
      * exists (String c s). simpl in *. subst r.
        split; [reflexivity|]. simpl. rewrite Ec, Hs. reflexivity.
      * exists r. simpl in *. split; [f_equal; assumption | assumption].
    + exists r. simpl in *. split; [f_equal; assumption | assumption].
Qed.

Lemma lstrip_fixed (s : string) :
  (forall c t, s = String c t -> space c = false) -> Py.lstrip_with space s = s.
Proof.
  destruct s as [|c s]; simpl; [reflexivity|]. intros H.
  rewrite (H c s eq_refl). reflexivity.
Qed.

Lemma rstrip_idempotent (s : string) :
  Py.rstrip_with space (Py.rstrip_with space s) = Py.rstrip_with space s.
Proof.
  induction s as [|c s IH]; simpl; [reflexivity|].
  destruct (Py.rstrip_with space s) as [|b t] eqn:Et.
  - destruct (space c) eqn:Ec; simpl; [reflexivity|]. rewrite Ec. reflexivity.
  - change (Py.rstrip_with space (String c (String b t))) with
      (match Py.rstrip_with space (String b t) with
       | EmptyString => if space c then EmptyString else String c EmptyString
       | u => String c u
       end).
    rewrite IH. reflexivity.
Qed.

Lemma strip_idempotent (s : string) :
  Py.strip_with space (Py.strip_with space s) = Py.strip_with space s.
Proof.
  unfold Py.strip_with.
  rewrite (lstrip_fixed (Py.rstrip_with space (Py.lstrip_with space s))).
  - apply rstrip_idempotent.
  - intros c t H. destruct (rstrip_head space _ _ _ H) as (s' & Hs').
    eapply lstrip_head. eassumption.
Qed.

End StripShape.

(** [strip] takes whitespace off both ends and nothing else: the text is
    what was stripped on the left, the result, and what was stripped on
    the right; the result neither starts nor ends with whitespace; to
    strip it again changes nothing. *)
Theorem strip_shape :
  forall s : string,
    (exists l r, s = (l ++ Py.strip s ++ r)%string /\
                 all_space l = true /\ all_space r = true) /\
    (forall c t, Py.strip s = String c t -> Py.isspace c = false) /\
    (forall t c, Py.strip s = (t ++ String c EmptyString)%string ->
                 Py.isspace c = false) /\
    Py.strip (Py.strip s) = Py.strip s.
Proof.
  intros s. split; [|split; [|split]].
  - destruct (lstrip_split Py.isspace s) as (l & Hl & Hls).
    destruct (rstrip_split Py.isspace (Py.lstrip_with Py.isspace s)) as (r & Hr & Hrs).
    exists l, r. unfold Py.strip, Py.strip_with, all_space.
    split; [|split; assumption].
    rewrite <- Hr. assumption.
  - intros c t. apply strip_head.
  - intros t c. apply strip_last.
  - apply strip_idempotent.
Qed.

(** To clean a product or a price that is clean already changes
    nothing. *)
Theorem clean_idempotent :
  forall c : cell,
    clean_product (clean_product c) = clean_product c /\
    clean_price (clean_price c) = clean_price c.
Proof.
  assert (H : forall old s,
             Py.strip (Py.replace old EmptyString (Py.strip (Py.replace old EmptyString s)))
             = Py.strip (Py.replace old EmptyString s)).
  { intros old s. rewrite replace_absent; [apply strip_idempotent|].
    intros Hin. apply strip_chars, replace_chars in Hin. destruct Hin as (Hne & _).
    apply Hne. reflexivity. }
  intros c. destruct c; simpl; split; try reflexivity; f_equal; apply H.
Qed.

(** ** Missing values and duplicates *)

Lemma filter_all {A : Type} (p : A -> bool) (l : list A) :
  filter p l = l <-> forallb p l = true.
Proof.
  induction l as [|a l IH]; simpl; [tauto|].
  destruct (p a) eqn:Ea; simpl.
  - rewrite <- IH. split; [intros H; inversion H; congruence | intros ->; reflexivity].
  - split; [|discriminate]. intros H.
    assert (Hin : In a (filter p l)) by (rewrite H; left; reflexivity).
    apply filter_In in Hin. destruct Hin; congruence.
Qed.

Lemma count_zero {A : Type} (p : A -> bool) (l : list A) :
  count p l = 0%nat <-> forallb (fun a => negb (p a)) l = true.
Proof.
  unfold count. induction l as [|a l IH]; simpl; [tauto|].
  destruct (p a); simpl; [split; discriminate | assumption].
Qed.

Lemma count_le {A : Type} (p q : A -> bool) (l : list A) :
  (forall a, p a = true -> q a = true) -> (count p l <= count q l)%nat.
Proof.
  intros H. unfold count. induction l as [|a l IH]; simpl; [lia|].
  destruct (p a) eqn:Ea; [rewrite (H a Ea); simpl; lia|].
  destruct (q a); simpl; lia.
Qed.

(** The counts that are printed before [dropna] tell what it does: it
    returns the frame as it is exactly when the four counts are zero; it
    drops at least as many rows as any one count and at most as many as
    the four together. *)
Theorem dropna_counts :
  forall df : list (Row F64.float64),
    let n := isnull_sum df in
    let dropped := (List.length df - List.length (dropna df))%nat in
    (dropna df = df <-> n = mkNullCounts 0 0 0 0) /\
    dropped = count has_null df /\
    (null_id n <= dropped)%nat /\ (null_product n <= dropped)%nat /\
    (null_price n <= dropped)%nat /\ (null_country n <= dropped)%nat /\
    (dropped <= null_id n + null_product n + null_price n + null_country n)%nat.
Proof.
  intros df n dropped.
  assert (Hd : dropped = count has_null df).
  { unfold dropped. pose proof (count_filter_length has_null df) as H.
    fold (dropna df) in H. lia. }
  split; [|split; [assumption|]].
  - unfold dropna. rewrite filter_all. unfold n, isnull_sum. split.
    + intros H.
      assert (Hz : forall p : Row F64.float64 -> bool,
                 (forall r, p r = true -> has_null r = true) -> count p df = 0%nat).
      { intros p Hp. apply count_zero. rewrite forallb_forall in *.
        intros r Hr. specialize (H r Hr). destruct (p r) eqn:Ep; [|reflexivity].
        rewrite (Hp r Ep) in H. discriminate. }
      rewrite !Hz; [reflexivity| | | |]; intros r Hr; unfold has_null; rewrite Hr;
        rewrite ?orb_true_r; reflexivity.
    + intros H. injection H as H1 H2 H3 H4.
      apply count_zero in H1, H2, H3, H4. rewrite forallb_forall in *.
      intros r Hr. specialize (H1 r Hr). specialize (H2 r Hr).
      specialize (H3 r Hr). specialize (H4 r Hr). unfold has_null.
      destruct (isnull (id r)), (isnull (product r)), (F64.isnan (price r)),
        (isnull (country r)); try discriminate; reflexivity.
  - rewrite Hd. unfold n, isnull_sum. simpl.
    repeat split;
      try (apply count_le; intros r Hr; unfold has_null; rewrite Hr;
           rewrite ?orb_true_r; reflexivity).
    unfold count. clear. induction df as [|r df IH]; simpl; [lia|].
    unfold has_null at 1.
    destruct (isnull (id r)), (isnull (product r)), (F64.isnan (price r)),
      (isnull (country r)); simpl; lia.
Qed.

Lemma existsb_rev {A : Type} (f : A -> bool) (l : list A) :
  existsb f (rev l) = existsb f l.
Proof.
  induction l as [|a l IH]; simpl; [reflexivity|].
  rewrite existsb_app, IH. simpl. rewrite orb_false_r. apply orb_comm.
Qed.

Lemma duplicated_from_nth (seen df : list (Row F64.float64)) (i : nat)
      (r : Row F64.float64) :
  nth_error df i = Some r ->
  nth_error (duplicated_from seen df) i
  = Some (existsb (same_key r) (firstn i df) || existsb (same_key r) seen).
Proof.
  revert seen i; induction df as [|a df IH]; intros seen i Hi.
  - destruct i; discriminate.
  - destruct i as [|i]; simpl in *.
    + inversion Hi; subst. reflexivity.
    + rewrite (IH (a :: seen) i Hi). simpl. f_equal.
      destruct (same_key r a), (existsb (same_key r) (firstn i df)); reflexivity.
Qed.

(** A row is marked by [duplicated] exactly when a row before it has the
    same product and price. *)
Theorem duplicated_spec :
  forall (df : list (Row F64.float64)) (i : nat) (r : Row F64.float64),
    nth_error df i = Some r ->
    nth_error (duplicated df) i = Some (existsb (same_key r) (firstn i df)).
Proof.
  intros df i r Hi. unfold duplicated.
  rewrite (duplicated_from_nth [] df i r Hi). simpl. rewrite orb_false_r. reflexivity.
Qed.

Lemma duplicated_spec_witness :
  nth_error (dropna (cleaned sample_records)) 1
  = Some (mkRow 1%nat (CInt 2) (CStr "Gadget") (F64.of_decimal false 55 (-1)) (CStr "IN")) /\
  nth_error (duplicated (dropna (cleaned sample_records))) 1 = Some false.
Proof.
  assert (H : nth_error (dropna (cleaned sample_records)) 1
              = Some (mkRow 1%nat (CInt 2) (CStr "Gadget")
                            (F64.of_decimal false 55 (-1)) (CStr "IN")))
    by reflexivity.
  split; [assumption|].
  rewrite (duplicated_spec _ 1%nat _ H). reflexivity.
Defined.

Lemma dedup_from_fixed (seen df : list (Row F64.float64)) :
  (forall x, In x df -> existsb (same_key x) seen = false) ->
  ForallOrdPairs (fun a b => same_key a b = false) df ->
  duplicated_from seen df = repeat false (List.length df) /\ dedup_from seen df = df.
Proof.
  revert seen; induction df as [|r df IH]; intros seen Hseen Hd.
  - split; reflexivity.
  - inversion Hd as [|? ? Hr Hd']; subst. rewrite dedup_from_cons. simpl.
    rewrite (Hseen r (or_introl eq_refl)).
    destruct (IH (r :: seen)) as (H1 & H2); [|assumption|rewrite H1, H2; auto].
    intros x Hx. simpl. rewrite (Hseen x (or_intror Hx)), orb_false_r.
    rewrite Forall_forall in Hr. apply same_key_false_sym, Hr, Hx.
Qed.

Lemma count_repeat_false (n : nat) : count (fun b => b) (repeat false n) = 0%nat.
Proof. unfold count. induction n; simpl; auto. Qed.

(** After [drop_duplicates] no row is marked by [duplicated], and to drop
    the duplicates again changes nothing. *)
Theorem drop_duplicates_idempotent :
  forall df : list (Row F64.float64),
    count (fun b => b) (duplicated (drop_duplicates df)) = 0%nat /\
    drop_duplicates (drop_duplicates df) = drop_duplicates df.
Proof.
  intros df.
  assert (Hseen : forall x, In x (drop_duplicates df) ->
                            existsb (same_key x) [] = false)
    by (intros x _; reflexivity).
  destruct (dedup_from_fixed [] (drop_duplicates df) Hseen (dedup_from_distinct [] df))
    as (H1 & H2).
  split; [|exact H2]. unfold duplicated. rewrite H1. apply count_repeat_false.
Qed.

(** The comparison of keys is an equivalence; it takes 0.0 and -0.0 for
    the same price, and all missing prices for the same. *)
Theorem same_key_equivalence :
  (forall a, same_key a a = true) /\
  (forall a b, same_key a b = true -> same_key b a = true) /\
  (forall a b c, same_key a b = true -> same_key b c = true -> same_key a c = true) /\
  (forall s t, same_float (S754_zero s) (S754_zero t) = true) /\
  same_float F64.nan F64.nan = true /\
  (forall x y, F64.isnan x = false -> same_float x y = F64.eqb x y).
Proof.
  split; [exact same_key_refl|]. split; [exact same_key_sym|].
  split; [exact same_key_trans|]. split; [reflexivity|]. split; [reflexivity|].
  intros x y Hx. unfold same_float. rewrite Hx. apply orb_false_r.
Qed.

(** ** More on the loader *)

Lemma frame_id (c0 c1 c2 c3 : list cell) : map id (Csv.frame c0 c1 c2 c3) = c0.
Proof. unfold Csv.frame. rewrite map_map. simpl. apply map_nth_seq. Qed.

Lemma frame_country (c0 c1 c2 c3 : list cell) :
  List.length c3 = List.length c0 -> map country (Csv.frame c0 c1 c2 c3) = c3.
Proof.
  intros H. unfold Csv.frame. rewrite map_map. simpl. rewrite <- H. apply map_nth_seq.
Qed.

Lemma read_csv_all_columns (records : list (list string)) (df : list (Row cell)) :
  Csv.read_csv records = OK df ->
  exists table,
    Csv.tokenize 4 records = OK table /\
    map id df = Csv.convert_tokens (Csv.column 0 table) /\
    map product df = Csv.convert_tokens (Csv.column 1 table) /\
    map price df = Csv.convert_tokens (Csv.column 2 table) /\
    map country df = Csv.convert_tokens (Csv.column 3 table).
Proof.
  unfold Csv.read_csv. destruct (Csv.tokenize 4 records) as [table|e]; simpl;
    [|discriminate].
  intros H; inversion H; subst. exists table. split; [reflexivity|].
  split; [apply frame_id|].
  split; [apply frame_product | split; [apply frame_price | apply frame_country]];
    rewrite !convert_tokens_length; unfold Csv.column; rewrite !length_map; reflexivity.
Qed.

Lemma tokenize_four_fields (records : list (list string)) :
  (forall rec, In rec records -> List.length rec = 4%nat) ->
  Csv.tokenize 4 records = OK records.
Proof.
  intros Hall. unfold Csv.tokenize. destruct records as [|first rest]; [reflexivity|].
  unfold Csv.expected_fields. rewrite (Hall first (or_introl eq_refl)). simpl Nat.max.
  replace (Csv.too_many_fields 4 rest) with false.
  - f_equal. rewrite <- (map_id (first :: rest)) at 2. apply map_ext_in.
    intros rec Hrec. unfold Csv.named_fields, Csv.pad.
    rewrite (Hall rec Hrec). simpl. apply app_nil_r.
  - symmetry. unfold Csv.too_many_fields.
    destruct (existsb _ rest) eqn:E; [|reflexivity].
    apply existsb_exists in E. destruct E as (rec & Hrec & Hlt).
    rewrite (Hall rec (or_intror Hrec)) in Hlt. discriminate.
Qed.

(** A string of a converted column is the word it was read from. *)
Lemma convert_tokens_verbatim (ws : list string) (i : nat) (s : string) :
  nth_error (Csv.convert_tokens ws) i = Some (CStr s) -> nth_error ws i = Some s.
Proof.
  assert (Hstr : forall b, nth_error (Csv.string_convert b ws) i = Some (CStr s) ->
                           nth_error ws i = Some s).
  { intros b. unfold Csv.string_convert. rewrite nth_error_map.
    destruct (nth_error ws i) as [w|]; simpl; [|discriminate].
    destruct (b && Csv.is_na w); intros H; inversion H; reflexivity. }
  assert (Hnot : forall (A : Type) (f : A -> cell) (l : list A),
             (forall a, f a <> CStr s) -> nth_error (map f l) i <> Some (CStr s)).
  { intros A f l Hf. rewrite nth_error_map.
    destruct (nth_error l i); simpl; [|discriminate].
    intros H; inversion H. eapply Hf; eassumption. }
  assert (Hafter :
    nth_error
      match Csv.try_double ws with
      | Some l => map CFloat l
      | None =>
          match Csv.try_bool ws with
          | Some l => map (fun o => match o with Some b => CBool b | None => CNaN end) l
          | None => Csv.string_convert true ws
          end
      end i = Some (CStr s) -> nth_error ws i = Some s).
  { destruct (Csv.try_double ws).
    - intros H. exfalso. revert H. apply Hnot. discriminate.
    - destruct (Csv.try_bool ws); [|apply Hstr].
      intros H. exfalso. revert H. apply Hnot. intros []; discriminate. }
  unfold Csv.convert_tokens.
  destruct (Csv.try_int64 ws); try assumption.
  - unfold Csv.upcast_int64. destruct (forallb _ a); intros H; exfalso; revert H;
      apply Hnot; intros []; discriminate.
  - destruct (Csv.try_uint64 ws); try assumption; try apply Hstr.
    intros H. exfalso. revert H. apply Hnot. discriminate.
Qed.

(** A file whose records all have four fields is loaded, each field in
    the column of its place; a cell that holds a string holds the field
    as it is in the record, blanks and quotes included. *)
Theorem read_csv_four_fields :
  forall records : list (list string),
    (forall rec, In rec records -> List.length rec = 4%nat) ->
    exists df,
      Csv.read_csv records = OK df /\
      List.length df = List.length records /\
      forall i r rec,
        nth_error df i = Some r -> nth_error records i = Some rec ->
        row r = i /\
        (forall s, id r = CStr s -> nth 0 rec EmptyString = s) /\
        (forall s, product r = CStr s -> nth 1 rec EmptyString = s) /\
        (forall s, price r = CStr s -> nth 2 rec EmptyString = s) /\
        (forall s, country r = CStr s -> nth 3 rec EmptyString = s).
Proof.
  intros records Hall.
  pose proof (tokenize_four_fields records Hall) as Htok.
  assert (Hread : exists df, Csv.read_csv records = OK df).
  { unfold Csv.read_csv. rewrite Htok. simpl. eauto. }
  destruct Hread as (df & Hread). exists df.
  split; [assumption|]. split; [apply read_csv_length; assumption|].
  intros i r rec Hr Hrec.
  destruct (read_csv_all_columns records df Hread) as (table & Htok' & H0 & H1 & H2 & H3).
  assert (table = records) by congruence. subst table.
  assert (Hcol : forall (k : nat) (f : Row cell -> cell) (s : string),
             map f df = Csv.convert_tokens (Csv.column k records) ->
             f r = CStr s -> nth k rec EmptyString = s).
  { intros k f s Hf Hs.
    assert (Hn : nth_error (map f df) i = Some (CStr s))
      by (rewrite nth_error_map, Hr; simpl; congruence).
    rewrite Hf in Hn. apply convert_tokens_verbatim in Hn.
    unfold Csv.column in Hn. rewrite nth_error_map, Hrec in Hn.
    inversion Hn; reflexivity. }
  split.
  - assert (Hn : nth_error (map row df) i = Some (row r))
      by (rewrite nth_error_map, Hr; reflexivity).
    rewrite (read_csv_rows records df Hread) in Hn.
    assert (Hlt : (i < List.length records)%nat)
      by (apply nth_error_Some; congruence).
    rewrite nth_error_seq in Hn. destruct (Nat.ltb_spec i (List.length records)); [|lia].
    inversion Hn; reflexivity.
  - repeat split; intros s Hs;
      [apply (Hcol 0%nat id s H0 Hs) | apply (Hcol 1%nat product s H1 Hs)
       | apply (Hcol 2%nat price s H2 Hs) | apply (Hcol 3%nat country s H3 Hs)].
Qed.

Lemma read_csv_four_fields_witness :
  (forall rec, In rec [["1"; " Widget "; "$10.00"; "US"]] -> List.length rec = 4%nat) /\
  exists df, Csv.read_csv [["1"; " Widget "; "$10.00"; "US"]] = OK df /\
             List.length df = 1%nat.
Proof.
  assert (H : forall rec, In rec [["1"; " Widget "; "$10.00"; "US"]] ->
                          List.length rec = 4%nat).
  { intros rec [<-|[]]. reflexivity. }
  split; [assumption|].
  destruct (read_csv_four_fields _ H) as (df & Hdf & Hlen & _).
  exists df. split; assumption.
Defined.

Lemma convert_tokens_kind (ws : list string) :
  forallb is_number (Csv.convert_tokens ws) = true \/
  forallb is_flag (Csv.convert_tokens ws) = true \/
  forallb is_text (Csv.convert_tokens ws) = true.
Proof.
  assert (Hmap : forall (A : Type) (p : cell -> bool) (f : A -> cell) (l : list A),
             (forall a, p (f a) = true) -> forallb p (map f l) = true).
  { intros A p f l Hf. apply forallb_forall. intros c Hc.
    apply in_map_iff in Hc. destruct Hc as (a & <- & _). apply Hf. }
  assert (Hstr : forall b, forallb is_text (Csv.string_convert b ws) = true).
  { intros b. apply Hmap. intros w. destruct (b && Csv.is_na w); reflexivity. }
  unfold Csv.convert_tokens.
  assert (Hafter :
    forall col, col = match Csv.try_double ws with
      | Some l => map CFloat l
      | None =>
          match Csv.try_bool ws with
          | Some l => map (fun o => match o with Some b => CBool b | None => CNaN end) l
          | None => Csv.string_convert true ws
          end
      end ->
      forallb is_number col = true \/ forallb is_flag col = true \/
      forallb is_text col = true).
  { intros col ->. destruct (Csv.try_double ws).
    - left. apply Hmap. reflexivity.
    - destruct (Csv.try_bool ws); [|auto].
      right; left. apply Hmap. intros []; reflexivity. }
  destruct (Csv.try_int64 ws); try (apply Hafter; reflexivity).
  - left. apply upcast_int64_numbers.
  - destruct (Csv.try_uint64 ws); try (apply Hafter; reflexivity); auto.
Qed.

(** On a file that the reader takes at once, each column of the loaded
    frame holds values of one kind: numbers, or booleans and missing
    values, or strings and missing values. *)
Theorem read_csv_column_kinds :
  forall (records : list (list string)) (df : list (Row cell)) (col : list cell),
    Csv.one_chunk records ->
    Csv.read_csv records = OK df ->
    In col [map id df; map product df; map price df; map country df] ->
    forallb is_number col = true \/ forallb is_flag col = true \/
    forallb is_text col = true.
Proof.
  intros records df col _ Hread Hcol.
  destruct (read_csv_all_columns records df Hread) as (table & _ & H0 & H1 & H2 & H3).
  simpl in Hcol. destruct Hcol as [<-|[<-|[<-|[<-|[]]]]];
    rewrite ?H0, ?H1, ?H2, ?H3; apply convert_tokens_kind.
Qed.

Lemma read_csv_column_kinds_witness :
  Csv.one_chunk [["1"; "Widget"; "$10.00"; "US"]] /\
  Csv.read_csv [["1"; "Widget"; "$10.00"; "US"]]
  = OK [mkRow 0%nat (CInt 1) (CStr "Widget") (CStr "$10.00") (CStr "US")] /\
  (forallb is_number [CInt 1] = true \/ forallb is_flag [CInt 1] = true \/
   forallb is_text [CInt 1] = true).
Proof.
  assert (H : Csv.one_chunk [["1"; "Widget"; "$10.00"; "US"]])
    by (unfold Csv.one_chunk; vm_compute; discriminate).
  split; [assumption|]. split; [reflexivity|].
  apply (read_csv_column_kinds
           [["1"; "Widget"; "$10.00"; "US"]]
           [mkRow 0%nat (CInt 1) (CStr "Widget") (CStr "$10.00") (CStr "US")]
           [CInt 1] H eq_refl (or_introl eq_refl)).
Defined.
